(** * Temp_Statistic.py: the weather-statistics pipeline

    A shallow embedding of [src/Temp_Statistic.py]: the Open-Meteo fetcher
    [get_historical_temperature], the exporters [create_heatmap],
    [create_trend_plots] and [save_temperature_data], and the driver
    [process_temperature_pipeline].

    Conventions of the embedding.
    - Python [dict]s are insertion-ordered association lists ([PyDict]):
      assigning to an existing key replaces the value in place, assigning
      to a new key appends.
    - A float is the rational number it denotes; a float cell of a frame
      is [option Q], [None] standing for NaN (a JSON [null]).  Floating
      point arithmetic is not rational arithmetic: the operations that
      round ([Series.mean], the aggregations of [groupby], [.round(2)],
      [sum] and [/]) are parameters of the development, and nothing is
      assumed of them.  Exact stand-ins instantiate them in the examples.
    - Exceptions are values of [Exn]; code that can raise returns
      [Exn + A], and the driver threads a [World] (the clock, the remote
      API and the files written so far) through a state-and-exception
      monad.  Nothing in the source catches an exception, so a raised one
      ends the run.
    - The two YAML documents enter as parsed values of the shape the
      driver expects; [pd.to_datetime] is a parameter; the metric arrays
      of a response hold numbers and nulls; matplotlib, seaborn and
      [np.polyfit] are not modelled: a figure is taken to be drawn, an
      exporter writes an artifact that records the data it was given, and
      writing a file succeeds. *)

From Stdlib Require Import List String Ascii ZArith QArith Bool Lia.
From Stdlib Require Import Qround Qabs.
Import ListNotations.

Local Open Scope string_scope.
Local Open Scope Z_scope.
Local Set Warnings "-register-all".

(* ------------------------------------------------------------------ *)
(** ** Python dictionaries *)

Module PyDict.

Section Dict.
Context {K V : Type}.
Variable eqb : K -> K -> bool.

Definition t := list (K * V).

(** [d.get(k)] *)
Fixpoint get (k : K) (d : t) : option V :=
  match d with
  | [] => None
  | (k', v) :: d' => if eqb k k' then Some v else get k d'
  end.

(** [k in d] *)
Definition mem (k : K) (d : t) : bool :=
  match get k d with Some _ => true | None => false end.

(** [d[k] = v] *)
Fixpoint set (k : K) (v : V) (d : t) : t :=
  match d with
  | [] => [(k, v)]
  | (k', v') :: d' =>
      if eqb k k' then (k', v) :: d' else (k', v') :: set k v d'
  end.

(** [d.keys()] *)
Definition keys (d : t) : list K := map fst d.

(** a run of assignments [d[k1] = v1; d[k2] = v2; ...] *)
Definition set_all (kvs : list (K * V)) (d : t) : t :=
  fold_left (fun acc kv => set (fst kv) (snd kv) acc) kvs d.
End Dict.

End PyDict.

(* ------------------------------------------------------------------ *)
(** ** Seasons and the month map *)

Inductive Season := Winter | Spring | Summer | Autumn.

Definition Season_eqb (a b : Season) : bool :=
  match a, b with
  | Winter, Winter | Spring, Spring | Summer, Summer | Autumn, Autumn => true
  | _, _ => false
  end.

Definition season_name (s : Season) : string :=
  match s with
  | Winter => "Winter"
  | Spring => "Spring"
  | Summer => "Summer"
  | Autumn => "Autumn"
  end.

(** The dict literal passed to [df['month'].map] in both
    [save_temperature_data] and [create_trend_plots], in source order. *)
Definition season_map : PyDict.t (K := Z) (V := Season) :=
  [ (12, Winter); (1, Winter); (2, Winter);
    (3, Spring); (4, Spring); (5, Spring);
    (6, Summer); (7, Summer); (8, Summer);
    (9, Autumn); (10, Autumn); (11, Autumn) ].

(** [Series.map(dict)] on one cell: a month missing from the dict maps to
    NaN. *)
Definition month_to_season (m : Z) : option Season :=
  PyDict.get Z.eqb m season_map.

Definition calendar_months : list Z := [1; 2; 3; 4; 5; 6; 7; 8; 9; 10; 11; 12].

Definition option_Season_eqb (a : option Season) (b : Season) : bool :=
  match a with Some s => Season_eqb s b | None => false end.

(** The months of the calendar that the map sends to [s]. *)
Definition months_of (s : Season) : list Z :=
  filter (fun m => option_Season_eqb (month_to_season m) s) calendar_months.

(** The convention as the specification words it: Dec-Feb Winter, Mar-May
    Spring, Jun-Aug Summer, Sep-Nov Autumn. *)
Definition spec_season (m : Z) : Season :=
  if (m =? 12) || (m <=? 2) then Winter
  else if m <=? 5 then Spring
  else if m <=? 8 then Summer
  else Autumn.

(* ------------------------------------------------------------------ *)
(** ** Exceptions and results *)

Inductive Exn :=
| ConnectionError      (* requests.get: the request could not be made *)
| JSONDecodeError      (* response.json(): the body is not JSON *)
| KeyError             (* d[k] on a dict without k *)
| TypeError            (* an operation on a value of the wrong type *)
| ValueError           (* pandas: unparsable dates, ragged columns *)
| ZeroDivisionError.   (* x / 0 *)

Definition Result (A : Type) : Type := (Exn + A)%type.

Definition rbind {A B} (r : Result A) (k : A -> Result B) : Result B :=
  match r with
  | inl e => inl e
  | inr a => k a
  end.

Notation "'try!' x <- r ; k" := (rbind r (fun x => k))
  (at level 10, x name, r at level 100, k at level 200).

(* ------------------------------------------------------------------ *)
(** ** Numbers, dates and JSON values *)

(** A float cell of a pandas column; [None] is NaN. *)
Definition Cell : Type := option Q.

Record Date := mkDate { year : Z; month : Z; day : Z }.

(** Chronological order on dates. *)
Definition date_leb (a b : Date) : bool :=
  (year a <? year b) ||
  ((year a =? year b) &&
   ((month a <? month b) || ((month a =? month b) && (day a <=? day b)))).

Fixpoint ascendingb (l : list Date) : bool :=
  match l with
  | a :: (b :: _) as tl => date_leb a b && ascendingb tl
  | _ => true
  end.

(** What [response.json()] returns.  [JObj] carries the parsed dict. *)
Inductive JSON :=
| JNull
| JBool (b : bool)
| JNum (q : Q)
| JStr (s : string)
| JArr (items : list JSON)
| JObj (fields : list (string * JSON)).

Definition is_str (k : string) (j : JSON) : bool :=
  match j with JStr s => String.eqb s k | _ => false end.

(** [k in data], by the type of [data]: key membership on a dict, element
    membership on a list, substring test on a string; other values are not
    iterable. *)
Definition py_in (k : string) (data : JSON) : Result bool :=
  match data with
  | JObj fields => inr (PyDict.mem String.eqb k fields)
  | JArr items => inr (existsb (is_str k) items)
  | JStr s => inr (match index 0 k s with Some _ => true | None => false end)
  | _ => inl TypeError
  end.

(** [data[k]] for a string key [k]. *)
Definition py_getitem (data : JSON) (k : string) : Result JSON :=
  match data with
  | JObj fields =>
      match PyDict.get String.eqb k fields with
      | Some v => inr v
      | None => inl KeyError
      end
  | _ => inl TypeError
  end.

(* ------------------------------------------------------------------ *)
(** ** Data frames *)

(** One row of the frame built by [get_historical_temperature]. *)
Record DailyWeatherRecord := mkRecord {
  date : Date;
  temperature_max : Cell;
  temperature_min : Cell;
  temperature_mean : Cell;
  humidity : Cell;
  precipitation : Cell
}.

(** The frame, row by row.  pandas stores it by column; the constructor
    below checks that the columns have one length, as pandas does. *)
Definition DataFrame : Type := list DailyWeatherRecord.

Definition cell_of_json (j : JSON) : Result Cell :=
  match j with
  | JNum q => inr (Some q)
  | JNull => inr None
  | _ => inl TypeError
  end.

Fixpoint cells_of_json (items : list JSON) : Result (list Cell) :=
  match items with
  | [] => inr []
  | j :: rest =>
      try! c <- cell_of_json j;
      try! cs <- cells_of_json rest;
      inr (c :: cs)
  end.

(** A metric array of the response as a float column: numbers and nulls.
    Columns of any other content are outside the modelled domain (the
    archive API documents each metric array as numbers or nulls) and are
    rejected. *)
Definition column_of_json (j : JSON) : Result (list Cell) :=
  match j with
  | JArr items => cells_of_json items
  | _ => inl TypeError
  end.

Fixpoint zip_rows (d : list Date) (tmax tmin tmean hum prec : list Cell)
  : DataFrame :=
  match d, tmax, tmin, tmean, hum, prec with
  | d0 :: d', a :: tmax', b :: tmin', c :: tmean', h :: hum', p :: prec' =>
      mkRecord d0 a b c h p :: zip_rows d' tmax' tmin' tmean' hum' prec'
  | _, _, _, _, _, _ => []
  end.

(** [pd.DataFrame({...})] on six columns: ragged columns raise. *)
Definition make_frame (d : list Date) (tmax tmin tmean hum prec : list Cell)
  : Result DataFrame :=
  let n := List.length d in
  if (Nat.eqb (List.length tmax) n && Nat.eqb (List.length tmin) n &&
      Nat.eqb (List.length tmean) n && Nat.eqb (List.length hum) n &&
      Nat.eqb (List.length prec) n)%bool
  then inr (zip_rows d tmax tmin tmean hum prec)
  else inl ValueError.

(* ------------------------------------------------------------------ *)
(** ** Metrics and statistics *)

Inductive Metric :=
| Temperature_mean | Temperature_max | Temperature_min
| Humidity | Precipitation.

Inductive Stat := Mean | Min | Max | Sum.

Definition metric_name (m : Metric) : string :=
  match m with
  | Temperature_mean => "temperature_mean"
  | Temperature_max => "temperature_max"
  | Temperature_min => "temperature_min"
  | Humidity => "humidity"
  | Precipitation => "precipitation"
  end.

Definition stat_name (s : Stat) : string :=
  match s with
  | Mean => "mean" | Min => "min" | Max => "max" | Sum => "sum"
  end.

(** [df[metric]] on one row. *)
Definition metric_cell (m : Metric) (r : DailyWeatherRecord) : Cell :=
  match m with
  | Temperature_mean => temperature_mean r
  | Temperature_max => temperature_max r
  | Temperature_min => temperature_min r
  | Humidity => humidity r
  | Precipitation => precipitation r
  end.

(* ------------------------------------------------------------------ *)
(** ** Exact stand-ins for the floating point operations

    The pipeline below takes the operations of pandas, numpy and Python
    that round as parameters.  These definitions compute them in exact
    rational arithmetic, which agrees with floating point when no rounding
    occurs; they serve to run the examples and nothing else. *)

(** The non-NaN values of a column, which is what pandas aggregates. *)
Definition dropna (col : list Cell) : list Q :=
  flat_map (fun c => match c with Some q => [q] | None => [] end) col.

(** A left fold from 0. *)
Definition exact_sum (l : list Q) : Q := fold_left Qplus l (0 # 1)%Q.

Definition exact_truediv (a : Q) (n : nat) : Q :=
  (a / inject_Z (Z.of_nat n))%Q.

Definition Qmin2 (a b : Q) : Q := if Qle_bool a b then a else b.
Definition Qmax2 (a b : Q) : Q := if Qle_bool a b then b else a.

Definition exact_mean (col : list Cell) : Cell :=
  match dropna col with
  | [] => None
  | v => Some (exact_truediv (exact_sum v) (List.length v))
  end.

Definition exact_min (col : list Cell) : Cell :=
  match dropna col with
  | [] => None
  | x :: v => Some (fold_left Qmin2 v x)
  end.

Definition exact_max (col : list Cell) : Cell :=
  match dropna col with
  | [] => None
  | x :: v => Some (fold_left Qmax2 v x)
  end.

(** The sum of an all-NaN group is 0. *)
Definition exact_total (col : list Cell) : Cell :=
  Some (exact_sum (dropna col)).

Definition exact_aggregate (s : Stat) (col : list Cell) : Cell :=
  match s with
  | Mean => exact_mean col
  | Min => exact_min col
  | Max => exact_max col
  | Sum => exact_total col
  end.

(** Round to the nearest integer, halves to even. *)
Definition nearest_even (q : Q) : Z :=
  let n := Qnum q in
  let d := Z.pos (Qden q) in
  let f := n / d in
  let r := n mod d in
  match 2 * r ?= d with
  | Lt => f
  | Gt => f + 1
  | Eq => if Z.even f then f else f + 1
  end.

Definition exact_round2 (c : Cell) : Cell :=
  match c with
  | None => None
  | Some q => Some (nearest_even (q * (100 # 1)) # 100)%Q
  end.

(* ------------------------------------------------------------------ *)
(** ** Wall clock and timestamps *)

Record DateTime := mkDateTime {
  dt_year : Z; dt_month : Z; dt_day : Z;
  dt_hour : Z; dt_minute : Z; dt_second : Z
}.

Definition digit_char (d : Z) : ascii :=
  match d with
  | 0 => "0" | 1 => "1" | 2 => "2" | 3 => "3" | 4 => "4"
  | 5 => "5" | 6 => "6" | 7 => "7" | 8 => "8" | _ => "9"
  end%char.

(** Zero-padded decimal fields, as [%m], [%d], [%H], [%M], [%S] print
    them. *)
Definition pad2 (n : Z) : string :=
  String (digit_char (n / 10 mod 10)) (String (digit_char (n mod 10)) "").

(** [%Y] for a four-digit year. *)
Definition pad4 (n : Z) : string :=
  String (digit_char (n / 1000 mod 10))
    (String (digit_char (n / 100 mod 10)) (pad2 n)).

(** [dt.strftime("%Y%m%d_%H%M%S")] *)
Definition strftime (t : DateTime) : string :=
  (pad4 (dt_year t) ++ pad2 (dt_month t) ++ pad2 (dt_day t) ++ "_" ++
   pad2 (dt_hour t) ++ pad2 (dt_minute t) ++ pad2 (dt_second t))%string.

(** The readings [datetime.now()] can return. *)
Definition valid_datetime (t : DateTime) : Prop :=
  1000 <= dt_year t <= 9999 /\ 1 <= dt_month t <= 12 /\
  1 <= dt_day t <= 31 /\ 0 <= dt_hour t <= 23 /\
  0 <= dt_minute t <= 59 /\ 0 <= dt_second t <= 59.

(** [os.path.join(a, b)] for a relative [b]. *)
Definition ends_with_slash (a : string) : bool :=
  match get (String.length a - 1) a with
  | Some c => Ascii.eqb c "/"
  | None => false
  end.

Definition path_join (a b : string) : string :=
  if String.eqb a "" then b
  else if ends_with_slash a then (a ++ b)%string
  else (a ++ "/" ++ b)%string.

(* ------------------------------------------------------------------ *)
(** ** Locations, summaries and output artifacts *)

(** An entry of the locations document: the value under one identifier. *)
Record YamlEntry := mkEntry {
  y_address : string;
  y_latitude : Q;
  y_longitude : Q;
  y_timestamp : string
}.

(** A dict of [coordinates_list]. *)
Record Location := mkLocation {
  loc_aim_id : string;
  loc_address : string;
  loc_latitude : Q;
  loc_longitude : Q;
  loc_timestamp : string
}.

(** A dict of [temperature_data] ([all_data] in
    [save_temperature_data]). *)
Record Summary := mkSummary {
  sum_lat : Q;
  sum_lng : Q;
  sum_avg_temp : Cell;
  sum_aim_id : string;
  sum_address : string
}.

(** The folium map with its heat layer. *)
Record HeatMap := mkHeatMap {
  map_location : Q * Q;
  zoom_start : Z;
  heatmap_data : list (Q * Q * Cell)
}.

(** A row of the frame written to a per-location CSV: the fetched record
    with the columns [save_temperature_data] assigns. *)
Record DetailRow := mkDetailRow {
  row_record : DailyWeatherRecord;
  row_aim_id : string;
  row_address : string;
  row_latitude : option Q;
  row_longitude : option Q;
  row_month : Z;
  row_year : Z;
  row_season : option Season
}.

(** A value of [stats_dict]. *)
Inductive Field :=
| FStr (s : string)
| FNum (c : Cell)
| FNone.

Definition StatsDict : Type := PyDict.t (K := string) (V := Field).

Inductive Artifact :=
| HeatmapHtml (m : HeatMap)
| TrendPng (aim_id : string)
| SummaryJson (all_data : list Summary)
| DetailCsv (rows : list DetailRow)
| StatisticsCsv (stats : list StatsDict).

(* ------------------------------------------------------------------ *)
(** ** The world: clock, remote API, file system *)

(** What the request URL is built from: the coordinates, and the clock
    reading that fixes [start_date] and [end_date]. *)
Record Request := mkRequest {
  req_latitude : Q;
  req_longitude : Q;
  req_now : DateTime
}.

Inductive HttpOutcome :=
| NetworkError                      (* requests.get raises *)
| Response (body : option JSON).    (* a body; [None] when it is not JSON *)

(** [clock] gives the successive readings of [datetime.now()], [ticks]
    counts the readings made; [files] logs the writes in order. *)
Record World := mkWorld {
  clock : nat -> DateTime;
  ticks : nat;
  remote : Request -> HttpOutcome;
  dirs : list string;
  files : list (string * Artifact)
}.

Definition M (A : Type) : Type := World -> World * Result A.

Definition ret {A} (a : A) : M A := fun w => (w, inr a).

Definition raise {A} (e : Exn) : M A := fun w => (w, inl e).

Definition bind {A B} (m : M A) (k : A -> M B) : M B :=
  fun w =>
    match m w with
    | (w', inl e) => (w', inl e)
    | (w', inr a) => k a w'
    end.

Definition lift {A} (r : Result A) : M A := fun w => (w, r).

Notation "'do' x <- m ; k" := (bind m (fun x => k))
  (at level 10, x name, m at level 100, k at level 200).

Notation "m ;; k" := (bind m (fun _ => k))
  (at level 100, k at level 200, right associativity).

(** The world after [k] more clock readings. *)
Definition advance (k : nat) (w : World) : World :=
  mkWorld (clock w) (k + ticks w) (remote w) (dirs w) (files w).

(** [datetime.now()] *)
Definition now : M DateTime :=
  fun w => (advance 1 w, inr (clock w (ticks w))).

(** [requests.get(url)] *)
Definition requests_get (req : Request) : M (option JSON) :=
  fun w =>
    match remote w req with
    | NetworkError => (w, inl ConnectionError)
    | Response body => (w, inr body)
    end.

(** [response.json()] *)
Definition response_json (body : option JSON) : Result JSON :=
  match body with
  | Some data => inr data
  | None => inl JSONDecodeError
  end.

(** [os.makedirs(path, exist_ok=True)] *)
Definition create_directories (output_path : string) : M unit :=
  fun w =>
    (mkWorld (clock w) (ticks w) (remote w)
       (if existsb (String.eqb output_path) (dirs w) then dirs w
        else (dirs w ++ [output_path])%list)
       (files w),
     inr tt).

(** Writing one output file. *)
Definition write_file (path : string) (a : Artifact) : M unit :=
  fun w =>
    (mkWorld (clock w) (ticks w) (remote w) (dirs w)
       (files w ++ [(path, a)])%list,
     inr tt).

(** The files written between two worlds of one run. *)
Definition outputs (before after : World) : list (string * Artifact) :=
  skipn (List.length (files before)) (files after).

(** A [for] loop whose body only has effects. *)
Fixpoint for_each {A} (l : list A) (body : A -> M unit) : M unit :=
  match l with
  | [] => ret tt
  | x :: l' => body x ;; for_each l' body
  end.

(* ------------------------------------------------------------------ *)
(** ** An ISO date reader

    [pd.to_datetime] is a parameter of the development below.  This reader
    of [YYYY-MM-DD] strings, the format of the archive API's [time] array,
    instantiates it in the examples. *)

Definition digit_of_ascii (c : ascii) : option Z :=
  let n := Z.of_nat (nat_of_ascii c) in
  if (48 <=? n) && (n <=? 57) then Some (n - 48) else None.

Definition number2 (a b : ascii) : option Z :=
  match digit_of_ascii a, digit_of_ascii b with
  | Some x, Some y => Some (10 * x + y)
  | _, _ => None
  end.

Definition parse_iso_date (s : string) : option Date :=
  match s with
  | String y1 (String y2 (String y3 (String y4 (String "-"
      (String m1 (String m2 (String "-" (String d1 (String d2 "")))))))))
    =>
      match number2 y1 y2, number2 y3 y4, number2 m1 m2, number2 d1 d2 with
      | Some yh, Some yl, Some m, Some d => Some (mkDate (100 * yh + yl) m d)
      | _, _, _, _ => None
      end
  | _ => None
  end.

Fixpoint iso_dates (items : list JSON) : option (list Date) :=
  match items with
  | [] => Some []
  | JStr s :: rest =>
      match parse_iso_date s, iso_dates rest with
      | Some d, Some ds => Some (d :: ds)
      | _, _ => None
      end
  | _ :: _ => None
  end.

Definition iso_to_datetime (j : JSON) : option (list Date) :=
  match j with
  | JArr items => iso_dates items
  | _ => None
  end.

(** The configuration document, reduced to the one setting the pipeline
    reads, [directories.temperature_output]: a document in which the
    lookups of the driver succeed and give a usable path or nothing. *)
Record Config := mkConfig { temperature_output : option string }.

(* ------------------------------------------------------------------ *)
(** ** Example data

    Two clocks, the remote behaviours selected by latitude, and the
    locations documents used in the examples that close the file. *)

(** A clock that advances one second at every reading. *)
Definition example_clock (n : nat) : DateTime :=
  mkDateTime 2024 1 1 12 0 (Z.of_nat n).

(** A clock that stays within one second. *)
Definition frozen_clock (n : nat) : DateTime := mkDateTime 2024 1 1 12 0 0.

Definition winter_body : JSON :=
  JObj [("latitude", JNum (1 # 1));
        ("daily",
         JObj [("time", JArr [JStr "2024-01-01"; JStr "2024-01-02"]);
               ("temperature_2m_max", JArr [JNum (5 # 1); JNull]);
               ("temperature_2m_min", JArr [JNum (1 # 1); JNum (2 # 1)]);
               ("temperature_2m_mean", JArr [JNum (3 # 1); JNum (7 # 2)]);
               ("relative_humidity_2m_mean",
                JArr [JNum (80 # 1); JNum (81 # 1)]);
               ("precipitation_sum", JArr [JNum (1 # 4); JNum (0 # 1)])])].

(** A response whose [time] array is not in ascending order. *)
Definition descending_body : JSON :=
  JObj [("daily",
         JObj [("time", JArr [JStr "2024-01-02"; JStr "2024-01-01"]);
               ("temperature_2m_max", JArr [JNum (5 # 1); JNum (4 # 1)]);
               ("temperature_2m_min", JArr [JNum (1 # 1); JNum (2 # 1)]);
               ("temperature_2m_mean", JArr [JNum (3 # 1); JNum (3 # 1)]);
               ("relative_humidity_2m_mean",
                JArr [JNum (80 # 1); JNum (81 # 1)]);
               ("precipitation_sum", JArr [JNum (0 # 1); JNum (0 # 1)])])].

(** The error document of the archive API: no ['daily'] key. *)
Definition no_daily_fields : list (string * JSON) :=
  [("error", JBool true); ("reason", JStr "out of range")].

(** A response in which every mean temperature is [null]. *)
Definition null_mean_body : JSON :=
  JObj [("daily",
         JObj [("time", JArr [JStr "2024-01-01"; JStr "2024-01-02"]);
               ("temperature_2m_max", JArr [JNum (5 # 1); JNum (4 # 1)]);
               ("temperature_2m_min", JArr [JNum (1 # 1); JNum (2 # 1)]);
               ("temperature_2m_mean", JArr [JNull; JNull]);
               ("relative_humidity_2m_mean",
                JArr [JNum (80 # 1); JNum (81 # 1)]);
               ("precipitation_sum", JArr [JNum (0 # 1); JNum (0 # 1)])])].

Definition example_remote (req : Request) : HttpOutcome :=
  match Qnum (req_latitude req) with
  | 1 => Response (Some winter_body)
  | 2 => Response (Some (JObj no_daily_fields))
  | 4 => Response (Some descending_body)
  | 5 => Response (Some JNull)
  | 6 => Response (Some null_mean_body)
  | _ => NetworkError
  end.

Definition example_world : World :=
  mkWorld example_clock 0 example_remote [] [].

Definition frozen_world : World :=
  mkWorld frozen_clock 0 example_remote [] [].

Definition example_config : Config := mkConfig (Some "out").

(** One location that is fetched and one whose response lacks
    ['daily']. *)
Definition example_doc : list (string * YamlEntry) :=
  [("aim_1", mkEntry "Grey Street" (1 # 1) (10 # 1) "t1");
   ("aim_2", mkEntry "Quayside" (2 # 1) (20 # 1) "t2")].

(** One location that is fetched, followed by one whose request fails in
    the network. *)
Definition failing_doc : list (string * YamlEntry) :=
  [("aim_1", mkEntry "Grey Street" (1 # 1) (10 # 1) "t1");
   ("aim_3", mkEntry "Jesmond" (3 # 1) (30 # 1) "t3")].

(** One location whose response has no mean temperature at all. *)
Definition null_mean_doc : list (string * YamlEntry) :=
  [("aim_6", mkEntry "Heaton" (6 # 1) (60 # 1) "t6")].

(** One location whose response body is the JSON value [null]. *)
Definition null_body_doc : list (string * YamlEntry) :=
  [("aim_5", mkEntry "Byker" (5 # 1) (50 # 1) "t5")].

(** Only a location whose response lacks ['daily']. *)
Definition skipped_doc : list (string * YamlEntry) :=
  [("aim_2", mkEntry "Quayside" (2 # 1) (20 # 1) "t2")].

Definition example_frame : DataFrame :=
  [ mkRecord (mkDate 2024 1 1) (Some (5 # 1)) (Some (1 # 1)) (Some (3 # 1))
      (Some (80 # 1)) (Some (1 # 4));
    mkRecord (mkDate 2024 1 2) None (Some (2 # 1)) (Some (7 # 2))
      (Some (81 # 1)) (Some (0 # 1)) ]%Q.

(** The frame of [null_mean_body]. *)
Definition null_mean_frame : DataFrame :=
  [ mkRecord (mkDate 2024 1 1) (Some (5 # 1)) (Some (1 # 1)) None
      (Some (80 # 1)) (Some (0 # 1));
    mkRecord (mkDate 2024 1 2) (Some (4 # 1)) (Some (2 # 1)) None
      (Some (81 # 1)) (Some (0 # 1)) ]%Q.

Definition example_location : Location :=
  mkLocation "aim_1" "Grey Street" (1 # 1) (10 # 1) "t1".

Definition skipped_location : Location :=
  mkLocation "aim_2" "Quayside" (2 # 1) (20 # 1) "t2".

(* ------------------------------------------------------------------ *)
(** ** The pipeline *)

Section Pipeline.

(** [pd.to_datetime] applied to the value of [daily['time']]: the parsed
    dates, in the order pandas returns them, or [None] when pandas rejects
    the value (it then raises [ValueError] or one of its subclasses). *)
Variable to_datetime : JSON -> option (list Date).

(** [Series.mean()] on a float column, as in
    [df['temperature_mean'].mean()]. *)
Variable series_mean : list Cell -> Cell.

(** One aggregation of [groupby(...).agg] on the float column of a
    group. *)
Variable aggregate : Stat -> list Cell -> Cell.

(** [.round(2)] on one cell of the aggregated frame. *)
Variable round2 : Cell -> Cell.

(** The built-in [sum] on a list of floats. *)
Variable py_sum : list Q -> Q.

(** [x / n] for a float [x] and a length [n > 0]. *)
Variable py_truediv : Q -> nat -> Q.

(** [yaml.safe_load] on the locations document, given as its key/value
    pairs in file order: a repeated key keeps its first position and its
    last value. *)
Definition yaml_safe_load (doc : list (string * YamlEntry))
  : PyDict.t (K := string) (V := YamlEntry) :=
  PyDict.set_all String.eqb doc [].

Definition get_coordinates_from_yaml
  (coordinates_data : PyDict.t (K := string) (V := YamlEntry))
  : list Location :=
  map (fun item =>
         let aim_id := fst item in
         let data := snd item in
         mkLocation aim_id (y_address data) (y_latitude data)
           (y_longitude data) (y_timestamp data))
      coordinates_data.

(** The frame built under [if 'daily' in data]. *)
Definition frame_of_daily (daily : JSON) : Result DataFrame :=
  try! time <- py_getitem daily "time";
  try! dates <- match to_datetime time with
                 | Some ds => inr ds
                 | None => inl ValueError
                 end;
  try! j_max <- py_getitem daily "temperature_2m_max";
  try! j_min <- py_getitem daily "temperature_2m_min";
  try! j_mean <- py_getitem daily "temperature_2m_mean";
  try! j_hum <- py_getitem daily "relative_humidity_2m_mean";
  try! j_prec <- py_getitem daily "precipitation_sum";
  try! c_max <- column_of_json j_max;
  try! c_min <- column_of_json j_min;
  try! c_mean <- column_of_json j_mean;
  try! c_hum <- column_of_json j_hum;
  try! c_prec <- column_of_json j_prec;
  make_frame dates c_max c_min c_mean c_hum c_prec.

(** The part of [get_historical_temperature] after [response.json()]: the
    function falls off its end, returning [None], when ['daily'] is not in
    the data. *)
Definition parse_response (data : JSON) : Result (option DataFrame) :=
  try! has_daily <- py_in "daily" data;
  if has_daily : bool then
    try! daily <- py_getitem data "daily";
    try! df <- frame_of_daily daily;
    inr (Some df)
  else inr None.

Definition get_historical_temperature (lat lng : Q) : M (option DataFrame) :=
  do end_date <- now;
  do response <- requests_get (mkRequest lat lng end_date);
  do data <- lift (response_json response);
  lift (parse_response data).

(** [sum(xs) / len(xs)] *)
Definition py_mean (xs : list Q) : Result Q :=
  match xs with
  | [] => inl ZeroDivisionError
  | _ => inr (py_truediv (py_sum xs) (List.length xs))
  end.

Definition is_nan (c : Cell) : bool :=
  match c with None => true | Some _ => false end.

(** [plugins.HeatMap(heatmap_data)]: folium refuses data that contains a
    NaN and raises [ValueError]. *)
Definition heat_layer (heatmap_data : list (Q * Q * Cell))
  : Result (list (Q * Q * Cell)) :=
  if existsb (fun p => is_nan (snd p)) heatmap_data then inl ValueError
  else inr heatmap_data.

Definition create_heatmap (temperature_data : list Summary)
  (output_path : string) : M string :=
  let lats := map sum_lat temperature_data in
  let lngs := map sum_lng temperature_data in
  do center_lat <- lift (py_mean lats);
  do center_lng <- lift (py_mean lngs);
  let heatmap_data :=
    map (fun d => (sum_lat d, sum_lng d, sum_avg_temp d)) temperature_data in
  do layer <- lift (heat_layer heatmap_data);
  let m := mkHeatMap (center_lat, center_lng) 13 layer in
  do t <- now;
  let timestamp := strftime t in
  let file_path :=
    path_join output_path
      ("temperature_heatmap_" ++ timestamp ++ ".html")%string in
  write_file file_path (HeatmapHtml m) ;;
  ret file_path.

(** [next((d for d in all_data if d['aim_id'] == aim_id), {})]; [None] is
    the empty dict of the default. *)
Definition find_location (all_data : list Summary) (aim_id : string)
  : option Summary :=
  find (fun d => String.eqb (sum_aim_id d) aim_id) all_data.

(** The columns assigned to [df] in the first loop of
    [save_temperature_data]. *)
Definition annotate (location : option Summary) (aim_id : string)
  (df : DataFrame) : list DetailRow :=
  map (fun r =>
         mkDetailRow r aim_id
           (match location with Some d => sum_address d | None => "" end)
           (option_map sum_lat location)
           (option_map sum_lng location)
           (month (date r)) (year (date r))
           (month_to_season (month (date r))))
      df.

(** *** The aggregator *)

(** The dict passed to [.agg], in source order. *)
Definition agg_spec : list (Metric * list Stat) :=
  [ (Temperature_mean, [Mean; Min; Max]);
    (Temperature_max, [Mean; Min; Max]);
    (Temperature_min, [Mean; Min; Max]);
    (Humidity, [Mean; Min; Max]);
    (Precipitation, [Sum; Mean; Max]) ].

(** The two-level column index of the aggregated frame. *)
Definition agg_columns : list (Metric * Stat) :=
  flat_map (fun ms => map (fun s => (fst ms, s)) (snd ms)) agg_spec.

(** [groupby] sorts its keys: the season names in alphabetical order. *)
Definition sorted_seasons : list Season := [Autumn; Spring; Summer; Winter].

(** The rows of one group; rows whose season is NaN are in no group. *)
Definition season_group (s : Season) (rows : list DetailRow)
  : list DetailRow :=
  filter (fun r => option_Season_eqb (row_season r) s) rows.

(** [grouped.index]: the seasons that have at least one row. *)
Definition group_index (rows : list DetailRow) : list Season :=
  filter (fun s => match season_group s rows with [] => false | _ => true end)
         sorted_seasons.

(** One cell of [df.groupby('season').agg({...}).round(2)]. *)
Definition grouped_cell (rows : list DetailRow) (s : Season)
  (c : Metric * Stat) : Cell :=
  round2 (aggregate (snd c)
            (map (fun r => metric_cell (fst c) (row_record r))
                 (season_group s rows))).

(** [grouped.loc[season].items()] *)
Definition grouped_loc (rows : list DetailRow) (s : Season)
  : list ((Metric * Stat) * Cell) :=
  map (fun c => (c, grouped_cell rows s c)) agg_columns.

Definition lower_ascii (c : ascii) : ascii :=
  let n := nat_of_ascii c in
  if (Nat.leb 65 n && Nat.leb n 90)%bool then ascii_of_nat (n + 32) else c.

(** [str.lower] *)
Fixpoint lower (s : string) : string :=
  match s with
  | EmptyString => EmptyString
  | String c s' => String (lower_ascii c) (lower s')
  end.

(** [f"{season.lower()}_{metric[0]}_{metric[1]}"] *)
Definition stat_key (s : Season) (c : Metric * Stat) : string :=
  (lower (season_name s) ++ "_" ++ metric_name (fst c) ++ "_" ++
   stat_name (snd c))%string.

(** The assignments made by the two nested loops over [grouped]. *)
Definition season_items (rows : list DetailRow) : list (string * Field) :=
  flat_map (fun s =>
              map (fun mc => (stat_key s (fst mc), FNum (snd mc)))
                  (grouped_loc rows s))
           (group_index rows).

Definition option_field {A} (f : A -> Field) (o : option A) : Field :=
  match o with Some a => f a | None => FNone end.

(** [stats_dict] for one location, at the end of the loop body. *)
Definition stats_dict (all_data : list Summary) (aim_id : string)
  (rows : list DetailRow) : StatsDict :=
  let location := find_location all_data aim_id in
  PyDict.set_all String.eqb (season_items rows)
    [ ("aim_id", FStr aim_id);
      ("address", option_field (fun d => FStr (sum_address d)) location);
      ("latitude", option_field (fun d => FNum (Some (sum_lat d))) location);
      ("longitude", option_field (fun d => FNum (Some (sum_lng d))) location)
    ].

(** *** The exporters *)

Definition save_temperature_data (all_data : list Summary)
  (detailed_data : PyDict.t (K := string) (V := DataFrame))
  (output_path : string) : M unit :=
  do t <- now;
  let timestamp := strftime t in
  write_file
    (path_join output_path
       ("temperature_summary_" ++ timestamp ++ ".json")%string)
    (SummaryJson all_data) ;;
  let annotated :=
    map (fun item =>
           (fst item,
            annotate (find_location all_data (fst item)) (fst item)
              (snd item)))
        detailed_data in
  for_each annotated
    (fun item =>
       write_file
         (path_join output_path
            ("temperature_data_" ++ fst item ++ "_" ++ timestamp ++ ".csv")
            %string)
         (DetailCsv (snd item))) ;;
  let stats :=
    map (fun item => stats_dict all_data (fst item) (snd item)) annotated in
  write_file
    (path_join output_path
       ("temperature_statistics_" ++ timestamp ++ ".csv")%string)
    (StatisticsCsv stats).

(** The figures themselves are not modelled: one PNG is written per
    location. *)
Definition create_trend_plots
  (detailed_data : PyDict.t (K := string) (V := DataFrame))
  (output_path : string) : M unit :=
  do t <- now;
  let timestamp := strftime t in
  for_each detailed_data
    (fun item =>
       write_file
         (path_join output_path
            ("temperature_trends_" ++ fst item ++ "_" ++ timestamp ++ ".png")
            %string)
         (TrendPng (fst item))).

(** *** The driver *)

Definition LoopState : Type :=
  (list Summary * PyDict.t (K := string) (V := DataFrame))%type.

(** The body of the loop after the fetch: [if df is not None: ...]. *)
Definition collect (coord : Location) (df : option DataFrame)
  (st : LoopState) : LoopState :=
  match df with
  | Some df =>
      let avg_temp := series_mean (map temperature_mean df) in
      ((fst st ++
          [mkSummary (loc_latitude coord) (loc_longitude coord) avg_temp
             (loc_aim_id coord) (loc_address coord)])%list,
       PyDict.set String.eqb (loc_aim_id coord) df (snd st))
  | None => st
  end.

Fixpoint fetch_loop (coordinates_list : list Location) (st : LoopState)
  : M LoopState :=
  match coordinates_list with
  | [] => ret st
  | coord :: rest =>
      do df <- get_historical_temperature (loc_latitude coord)
                 (loc_longitude coord);
      fetch_loop rest (collect coord df st)
  end.

Definition default_output_path : string :=
  path_join "data" "temperature_heatmaps".

(** [process_temperature_pipeline], from the parsed configuration and the
    key/value pairs of the locations document. *)
Definition process_temperature_pipeline (config : Config)
  (coordinates_doc : list (string * YamlEntry)) : M unit :=
  let output_path :=
    match temperature_output config with
    | Some p => p
    | None => default_output_path
    end in
  create_directories output_path ;;
  let coordinates_list :=
    get_coordinates_from_yaml (yaml_safe_load coordinates_doc) in
  do st <- fetch_loop coordinates_list ([], []);
  let temperature_data := fst st in
  let detailed_data := snd st in
  match temperature_data with
  | [] => ret tt
  | _ :: _ =>
      do heatmap_file <- create_heatmap temperature_data output_path;
      create_trend_plots detailed_data output_path ;;
      save_temperature_data temperature_data detailed_data output_path
  end.

(* ------------------------------------------------------------------ *)
(** ** Reference notions used to state the properties *)

(** The fetches of a run on their own: every location in turn, with the
    result of each. *)
Fixpoint fetch_all (coordinates_list : list Location)
  : M (list (option DataFrame)) :=
  match coordinates_list with
  | [] => ret []
  | coord :: rest =>
      do r <- get_historical_temperature (loc_latitude coord)
                (loc_longitude coord);
      do rs <- fetch_all rest;
      ret (r :: rs)
  end.

(** The locations whose fetch returned a data frame, with the frame. *)
Fixpoint successes (coordinates_list : list Location)
  (rs : list (option DataFrame)) : list (Location * DataFrame) :=
  match coordinates_list, rs with
  | coord :: rest, Some df :: rs' => (coord, df) :: successes rest rs'
  | _ :: rest, None :: rs' => successes rest rs'
  | _, _ => []
  end.

Definition summary_of (cd : Location * DataFrame) : Summary :=
  mkSummary (loc_latitude (fst cd)) (loc_longitude (fst cd))
    (series_mean (map temperature_mean (snd cd)))
    (loc_aim_id (fst cd)) (loc_address (fst cd)).

Definition frame_of (cd : Location * DataFrame) : string * DataFrame :=
  (loc_aim_id (fst cd), snd cd).

(** The mean of a non-empty list of floats as Python computes it:
    [sum(xs) / len(xs)]. *)
Definition arithmetic_mean (xs : list Q) : Q :=
  py_truediv (py_sum xs) (List.length xs).

(** The world with more files written. *)
Definition with_files (w : World) (fs : list (string * Artifact)) : World :=
  mkWorld (clock w) (ticks w) (remote w) (dirs w) (files w ++ fs)%list.

(** The file written by [create_heatmap] at clock reading [t]. *)
Definition heatmap_file (temperature_data : list Summary)
  (output_path : string) (t : DateTime) : string * Artifact :=
  (path_join output_path
     ("temperature_heatmap_" ++ strftime t ++ ".html")%string,
   HeatmapHtml
     (mkHeatMap
        (arithmetic_mean (map sum_lat temperature_data),
         arithmetic_mean (map sum_lng temperature_data))
        13
        (map (fun d => (sum_lat d, sum_lng d, sum_avg_temp d))
             temperature_data))).

(** The files written by [create_trend_plots] at clock reading [t]. *)
Definition trend_files
  (detailed_data : PyDict.t (K := string) (V := DataFrame))
  (output_path : string) (t : DateTime) : list (string * Artifact) :=
  map (fun item =>
         (path_join output_path
            ("temperature_trends_" ++ fst item ++ "_" ++ strftime t ++ ".png")
            %string,
          TrendPng (fst item)))
      detailed_data.

Definition detail_csv_files (all_data : list Summary)
  (detailed_data : PyDict.t (K := string) (V := DataFrame))
  (output_path : string) (t : DateTime) : list (string * Artifact) :=
  map (fun item =>
         (path_join output_path
            ("temperature_data_" ++ fst item ++ "_" ++ strftime t ++ ".csv")
            %string,
          DetailCsv
            (annotate (find_location all_data (fst item)) (fst item)
               (snd item))))
      detailed_data.

(** The files written by [save_temperature_data] at clock reading [t]. *)
Definition saved_files (all_data : list Summary)
  (detailed_data : PyDict.t (K := string) (V := DataFrame))
  (output_path : string) (t : DateTime) : list (string * Artifact) :=
  ((path_join output_path
      ("temperature_summary_" ++ strftime t ++ ".json")%string,
    SummaryJson all_data)
   :: detail_csv_files all_data detailed_data output_path t
   ++ [(path_join output_path
          ("temperature_statistics_" ++ strftime t ++ ".csv")%string,
        StatisticsCsv
          (map (fun item =>
                  stats_dict all_data (fst item)
                    (annotate (find_location all_data (fst item)) (fst item)
                       (snd item)))
               detailed_data))])%list.

Definition is_detail_csv (f : string * Artifact) : bool :=
  match snd f with DetailCsv _ => true | _ => false end.

Definition is_heatmap (f : string * Artifact) : bool :=
  match snd f with HeatmapHtml _ => true | _ => false end.

Definition output_path_of (config : Config) : string :=
  match temperature_output config with
  | Some p => p
  | None => default_output_path
  end.

(** The locations the driver iterates over. *)
Definition locations_of (coordinates_doc : list (string * YamlEntry))
  : list Location :=
  get_coordinates_from_yaml (yaml_safe_load coordinates_doc).

(** What one call of [get_historical_temperature] returns in world [w]:
    the request is built from the clock reading of the call. *)
Definition fetch_result (w : World) (lat lng : Q)
  : Result (option DataFrame) :=
  match remote w (mkRequest lat lng (clock w (ticks w))) with
  | NetworkError => inl ConnectionError
  | Response body => try! data <- response_json body; parse_response data
  end.

(** Whether a weight of the heat layer is NaN: the mean of a
    [temperature_mean] column without a number. *)
Definition has_nan_weight (temperature_data : list Summary) : bool :=
  existsb (fun d => is_nan (sum_avg_temp d)) temperature_data.

(** The files of one completed run: the exporters run in turn, each at
    its own clock reading. *)
Definition run_files (td : list Summary)
  (dd : PyDict.t (K := string) (V := DataFrame)) (out : string)
  (w : World) : list (string * Artifact) :=
  match td with
  | [] => []
  | _ :: _ =>
      (heatmap_file td out (clock w (ticks w))
       :: trend_files dd out (clock w (1 + ticks w)%nat)
       ++ saved_files td dd out (clock w (2 + ticks w)%nat))%list
  end.

(** The world in which the fetch loop starts. *)
Definition start (config : Config) (w : World) : World :=
  fst (create_directories (output_path_of config) w).

Definition is_frame (r : option DataFrame) : bool :=
  match r with Some _ => true | None => false end.

(** A result that is not the exception of a division by zero. *)
Definition no_zero_division {A} (r : Result A) : Prop :=
  r <> inl ZeroDivisionError.

(** The names of the output files, by the timestamp they carry. *)
Definition heatmap_name (out ts : string) : string :=
  path_join out ("temperature_heatmap_" ++ ts ++ ".html")%string.

Definition trend_name (out aim_id ts : string) : string :=
  path_join out ("temperature_trends_" ++ aim_id ++ "_" ++ ts ++ ".png")
    %string.

Definition summary_name (out ts : string) : string :=
  path_join out ("temperature_summary_" ++ ts ++ ".json")%string.

Definition detail_name (out aim_id ts : string) : string :=
  path_join out ("temperature_data_" ++ aim_id ++ "_" ++ ts ++ ".csv")%string.

Definition statistics_name (out ts : string) : string :=
  path_join out ("temperature_statistics_" ++ ts ++ ".csv")%string.

(** A duplicate-free list of strings, decided. *)
Fixpoint nodupb (l : list string) : bool :=
  match l with
  | [] => true
  | x :: l' => negb (existsb (String.eqb x) l') && nodupb l'
  end.

(** The four identity keys that open every [stats_dict]. *)
Definition identity_keys : list string :=
  ["aim_id"; "address"; "latitude"; "longitude"].

(** The records of a frame that fall in season [s]. *)
Definition records_of_season (s : Season) (df : DataFrame) : DataFrame :=
  filter (fun r => option_Season_eqb (month_to_season (month (date r))) s) df.

(** The centre [create_heatmap] gives the map of a non-empty list. *)
Definition map_location_of (temperature_data : list Summary) : Q * Q :=
  (arithmetic_mean (map sum_lat temperature_data),
   arithmetic_mean (map sum_lng temperature_data)).

(* ------------------------------------------------------------------ *)
(** ** Further reference notions *)

(** The six arrays [get_historical_temperature] reads from the ['daily']
    object, in the order it reads them. *)
Definition daily_keys : list string :=
  [ "time"; "temperature_2m_max"; "temperature_2m_min";
    "temperature_2m_mean"; "relative_humidity_2m_mean";
    "precipitation_sum" ].


(** The world with another remote API. *)
Definition with_remote (w : World) (r : Request -> HttpOutcome) : World :=
  mkWorld (clock w) (ticks w) r (dirs w) (files w).

(** The request of the [k]-th fetch of a run started in [w]. *)
Definition request_at (w : World) (k : nat) (coord : Location) : Request :=
  mkRequest (loc_latitude coord) (loc_longitude coord)
    (clock w (k + ticks w)%nat).

(** The run reaches the [k]-th location: every fetch before it
    returns. *)
Definition reaches (w : World) (coords : list Location) (k : nat) : Prop :=
  forall j c,
    (j < k)%nat -> nth_error coords j = Some c ->
    exists r,
      fetch_result (advance j w) (loc_latitude c) (loc_longitude c) = inr r.

(** *** Further example data *)

(** A ['daily'] object without the precipitation array. *)
Definition incomplete_daily : list (string * JSON) :=
  [("time", JArr [JStr "2024-01-01"]);
   ("temperature_2m_max", JArr [JNum (5 # 1)]);
   ("temperature_2m_min", JArr [JNum (1 # 1)]);
   ("temperature_2m_mean", JArr [JNum (3 # 1)]);
   ("relative_humidity_2m_mean", JArr [JNum (80 # 1)])].

Definition incomplete_world : World :=
  mkWorld example_clock 0
    (fun _ => Response (Some (JObj [("daily", JObj incomplete_daily)])))
    [] [].

(** A remote API that answers like [example_remote] at latitude 1 and
    fails everywhere else. *)
Definition sparse_remote (req : Request) : HttpOutcome :=
  match Qnum (req_latitude req) with
  | 1 => Response (Some winter_body)
  | _ => NetworkError
  end.

(** A location that is fetched, one whose request fails in the network,
    and one that the run therefore never reaches. *)
Definition interrupted_doc : list (string * YamlEntry) :=
  [("aim_1", mkEntry "Grey Street" (1 # 1) (10 # 1) "t1");
   ("aim_3", mkEntry "Jesmond" (3 # 1) (30 # 1) "t3");
   ("aim_2", mkEntry "Quayside" (2 # 1) (20 # 1) "t2")].

Definition failing_location : Location :=
  mkLocation "aim_3" "Jesmond" (3 # 1) (30 # 1) "t3".
(* ================================================================== *)
(** * Properties *)

(** ** Dictionaries *)

Lemma dict_get_set_same {V} (k : string) (v : V) d :
  PyDict.get String.eqb k (PyDict.set String.eqb k v d) = Some v.
Proof.
  induction d as [| [k' v'] d IH]; simpl.
  - now rewrite String.eqb_refl.
  - destruct (String.eqb k k') eqn:E; simpl; rewrite E; auto.
Qed.

Lemma dict_get_set_other {V} (k k0 : string) (v : V) d :
  k0 <> k ->
  PyDict.get String.eqb k0 (PyDict.set String.eqb k v d) =
  PyDict.get String.eqb k0 d.
Proof.
  intros Hne. induction d as [| [k' v'] d IH]; simpl.
  - destruct (String.eqb_spec k0 k); [contradiction | reflexivity].
  - destruct (String.eqb_spec k k') as [-> | Hk]; simpl.
    + destruct (String.eqb_spec k0 k'); [contradiction | reflexivity].
    + now rewrite IH.
Qed.

Lemma dict_get_None_keys {V} (k : string) (d : PyDict.t (V := V)) :
  PyDict.get String.eqb k d = None <-> ~ In k (PyDict.keys d).
Proof.
  induction d as [| [k' v'] d IH]; simpl.
  - tauto.
  - destruct (String.eqb_spec k k') as [-> | Hk].
    + split; [discriminate | intros H; exfalso; apply H; now left].
    + rewrite IH. split; intros H; [intros [E | HIn]; [congruence | tauto]
                                  | tauto].
Qed.

Lemma dict_set_fresh {V} (k : string) (v : V) d :
  ~ In k (PyDict.keys d) ->
  PyDict.set String.eqb k v d = (d ++ [(k, v)])%list.
Proof.
  induction d as [| [k' v'] d IH]; simpl; intros Hn.
  - reflexivity.
  - destruct (String.eqb_spec k k') as [-> | Hk].
    + exfalso. apply Hn. now left.
    + rewrite IH; [reflexivity | tauto].
Qed.

Lemma dict_keys_set {V} (k : string) (v : V) d :
  PyDict.keys (PyDict.set String.eqb k v d) =
  if PyDict.mem String.eqb k d then PyDict.keys d
  else (PyDict.keys d ++ [k])%list.
Proof.
  unfold PyDict.mem.
  induction d as [| [k' v'] d IH]; simpl.
  - reflexivity.
  - destruct (String.eqb_spec k k') as [-> | Hk]; simpl.
    + reflexivity.
    + rewrite IH. now destruct (PyDict.get String.eqb k d).
Qed.

Lemma dict_set_NoDup {V} (k : string) (v : V) d :
  NoDup (PyDict.keys d) -> NoDup (PyDict.keys (PyDict.set String.eqb k v d)).
Proof.
  intros Hd. rewrite dict_keys_set. unfold PyDict.mem.
  destruct (PyDict.get String.eqb k d) eqn:E; [assumption |].
  apply dict_get_None_keys in E.
  apply NoDup_app; repeat split; auto.
  - constructor; [tauto | constructor].
  - intros x Hx [<- | []]. contradiction.
Qed.

Lemma dict_set_all_NoDup {V} (kvs : list (string * V)) d :
  NoDup (PyDict.keys d) -> NoDup (PyDict.keys (PyDict.set_all String.eqb kvs d)).
Proof.
  revert d. induction kvs as [| [k v] kvs IH]; simpl; intros d Hd.
  - assumption.
  - apply IH. now apply dict_set_NoDup.
Qed.

(** From the empty dict, assignments to distinct keys build the list of
    the assignments themselves. *)
Lemma dict_set_all_distinct {V} (kvs : list (string * V)) d :
  NoDup (PyDict.keys d ++ map fst kvs) ->
  PyDict.set_all String.eqb kvs d = (d ++ kvs)%list.
Proof.
  revert d. induction kvs as [| [k v] kvs IH]; simpl; intros d Hd.
  - now rewrite app_nil_r.
  - assert (Hk : ~ In k (PyDict.keys d)).
    { apply NoDup_remove_2 in Hd. intros HIn. apply Hd.
      apply in_or_app. now left. }
    rewrite dict_set_fresh by assumption.
    rewrite IH.
    + now rewrite <- app_assoc.
    + unfold PyDict.keys in *. rewrite map_app. simpl.
      rewrite <- app_assoc. simpl. exact Hd.
Qed.

(** ** Worlds *)

Lemma advance_advance a b w : advance a (advance b w) = advance (a + b) w.
Proof. unfold advance. simpl. now rewrite Nat.add_assoc. Qed.

Lemma advance_0 w : advance 0 w = w.
Proof. now destruct w. Qed.

Lemma with_files_nil w : with_files w [] = w.
Proof. destruct w. unfold with_files. simpl. now rewrite app_nil_r. Qed.

Lemma with_files_app w a b :
  with_files (with_files w a) b = with_files w (a ++ b).
Proof. unfold with_files. simpl. now rewrite app_assoc. Qed.

Lemma outputs_with_files w fs : outputs w (with_files w fs) = fs.
Proof.
  unfold outputs, with_files. simpl.
  rewrite skipn_app, skipn_all, Nat.sub_diag. reflexivity.
Qed.

Lemma outputs_same_files w w' : files w' = files w -> outputs w w' = [].
Proof. intros E. unfold outputs. rewrite E. apply skipn_all. Qed.

Lemma for_each_write {A} (l : list A) (p : A -> string) (a : A -> Artifact) w :
  for_each l (fun x => write_file (p x) (a x)) w =
  (with_files w (map (fun x => (p x, a x)) l), inr tt).
Proof.
  revert w. induction l as [| x l IH]; intros w; simpl.
  - unfold ret. now rewrite with_files_nil.
  - unfold bind at 1. unfold write_file at 1. rewrite IH.
    unfold with_files. simpl. now rewrite <- app_assoc.
Qed.

(** ** Strings *)

Lemma length_append (a b : string) :
  String.length (a ++ b) = (String.length a + String.length b)%nat.
Proof. induction a as [| c a IH]; simpl; [reflexivity | now rewrite IH]. Qed.

Lemma append_inv_head (a x y : string) : (a ++ x = a ++ y)%string -> x = y.
Proof.
  induction a as [| c a IH]; simpl; intros H; [exact H |].
  injection H as H. now apply IH.
Qed.

Lemma append_inv_tail (s a b : string) : (a ++ s = b ++ s)%string -> a = b.
Proof.
  revert b. induction a as [| c a IH]; intros [| c' b] H; simpl in H.
  - reflexivity.
  - apply (f_equal String.length) in H. simpl in H.
    rewrite length_append in H. lia.
  - apply (f_equal String.length) in H. simpl in H.
    rewrite length_append in H. lia.
  - injection H as -> H. f_equal. now apply IH.
Qed.

Lemma path_join_inj (out a b : string) :
  path_join out a = path_join out b -> a = b.
Proof.
  unfold path_join.
  destruct (String.eqb out ""); [auto |].
  destruct (ends_with_slash out); intros H.
  - now apply append_inv_head in H.
  - apply append_inv_head in H. now apply append_inv_head in H.
Qed.

(** ** Timestamps *)

Lemma digit_char_inj a b :
  0 <= a <= 9 -> 0 <= b <= 9 -> digit_char a = digit_char b -> a = b.
Proof.
  intros Ha Hb.
  assert (Ea : a = 0 \/ a = 1 \/ a = 2 \/ a = 3 \/ a = 4 \/ a = 5 \/ a = 6 \/
               a = 7 \/ a = 8 \/ a = 9) by lia.
  assert (Eb : b = 0 \/ b = 1 \/ b = 2 \/ b = 3 \/ b = 4 \/ b = 5 \/ b = 6 \/
               b = 7 \/ b = 8 \/ b = 9) by lia.
  repeat (destruct Ea as [-> | Ea]); try subst a;
    repeat (destruct Eb as [-> | Eb]); try subst b;
    simpl; intros H; try reflexivity; discriminate H.
Qed.

Lemma digit_eq n m k :
  digit_char (n / k mod 10) = digit_char (m / k mod 10) ->
  n / k mod 10 = m / k mod 10.
Proof.
  apply digit_char_inj.
  - pose proof (Z.mod_pos_bound (n / k) 10). lia.
  - pose proof (Z.mod_pos_bound (m / k) 10). lia.
Qed.

Lemma digit_eq_1 n m :
  digit_char (n mod 10) = digit_char (m mod 10) -> n mod 10 = m mod 10.
Proof.
  apply digit_char_inj.
  - pose proof (Z.mod_pos_bound n 10). lia.
  - pose proof (Z.mod_pos_bound m 10). lia.
Qed.

Lemma two_digits n :
  0 <= n < 100 -> n = 10 * (n / 10 mod 10) + n mod 10.
Proof.
  intros Hn.
  assert (H1 : n / 10 mod 10 = n / 10).
  { apply Z.mod_small. split; [apply Z.div_pos; lia |].
    apply Z.div_lt_upper_bound; lia. }
  pose proof (Z.div_mod n 10). lia.
Qed.

Lemma four_digits n :
  0 <= n < 10000 ->
  n = 1000 * (n / 1000 mod 10) + 100 * (n / 100 mod 10) +
      10 * (n / 10 mod 10) + n mod 10.
Proof.
  intros Hn.
  assert (H3 : n / 1000 mod 10 = n / 1000).
  { apply Z.mod_small. split; [apply Z.div_pos; lia |].
    apply Z.div_lt_upper_bound; lia. }
  assert (E2 : n / 10 / 10 = n / 100) by (rewrite Z.div_div by lia; reflexivity).
  assert (E3 : n / 100 / 10 = n / 1000)
    by (rewrite Z.div_div by lia; reflexivity).
  pose proof (Z.div_mod n 10).
  pose proof (Z.div_mod (n / 10) 10).
  pose proof (Z.div_mod (n / 100) 10).
  lia.
Qed.

Lemma pad2_inj n m :
  0 <= n < 100 -> 0 <= m < 100 -> pad2 n = pad2 m -> n = m.
Proof.
  intros Hn Hm H. unfold pad2 in H. injection H as H1 H0.
  apply digit_eq in H1. apply digit_eq_1 in H0.
  rewrite (two_digits n Hn), (two_digits m Hm). lia.
Qed.

Lemma pad4_inj n m :
  0 <= n < 10000 -> 0 <= m < 10000 -> pad4 n = pad4 m -> n = m.
Proof.
  intros Hn Hm H. unfold pad4, pad2 in H. injection H as H3 H2 H1 H0.
  apply digit_eq in H3, H2, H1. apply digit_eq_1 in H0.
  rewrite (four_digits n Hn), (four_digits m Hm). lia.
Qed.

Lemma pad2_append_inv n m (s s' : string) :
  (pad2 n ++ s = pad2 m ++ s')%string -> pad2 n = pad2 m /\ s = s'.
Proof.
  unfold pad2. cbn [append]. intros H. injection H as H1 H0 Hs.
  now rewrite H1, H0.
Qed.

Lemma pad4_append_inv n m (s s' : string) :
  (pad4 n ++ s = pad4 m ++ s')%string -> pad4 n = pad4 m /\ s = s'.
Proof.
  unfold pad4, pad2. cbn [append]. intros H. injection H as H3 H2 H1 H0 Hs.
  now rewrite H3, H2, H1, H0.
Qed.

Lemma strftime_inj a b :
  valid_datetime a -> valid_datetime b -> strftime a = strftime b -> a = b.
Proof.
  intros (Hy & Hmo & Hd & Hh & Hmi & Hs) (Hy' & Hmo' & Hd' & Hh' & Hmi' & Hs').
  unfold strftime. intros H.
  apply pad4_append_inv in H. destruct H as [Ey H].
  apply pad2_append_inv in H. destruct H as [Emo H].
  apply pad2_append_inv in H. destruct H as [Ed H].
  apply append_inv_head in H.
  apply pad2_append_inv in H. destruct H as [Eh H].
  apply pad2_append_inv in H. destruct H as [Emi Es].
  apply pad4_inj in Ey; [| lia | lia].
  apply pad2_inj in Emo; [| lia | lia].
  apply pad2_inj in Ed; [| lia | lia].
  apply pad2_inj in Eh; [| lia | lia].
  apply pad2_inj in Emi; [| lia | lia].
  apply pad2_inj in Es; [| lia | lia].
  destruct a, b. simpl in *. congruence.
Qed.

Lemma stamped_name_inj out pre suf a b :
  valid_datetime a -> valid_datetime b ->
  path_join out (pre ++ strftime a ++ suf) =
  path_join out (pre ++ strftime b ++ suf) ->
  a = b.
Proof.
  intros Ha Hb H. apply path_join_inj in H. apply append_inv_head in H.
  apply append_inv_tail in H. now apply strftime_inj.
Qed.

(** ** Duplicate-free key lists *)

Lemma nodupb_sound l : nodupb l = true -> NoDup l.
Proof.
  induction l as [| x l IH]; simpl; intros H; [constructor |].
  apply andb_prop in H. destruct H as [Hx Hl].
  constructor; [| now apply IH].
  intros HIn. apply negb_true_iff in Hx.
  assert (E : existsb (String.eqb x) l = true).
  { apply existsb_exists. exists x. split; [exact HIn |].
    apply String.eqb_refl. }
  congruence.
Qed.

Lemma dict_get_In_NoDup {V} (k : string) (v : V) d :
  NoDup (PyDict.keys d) -> In (k, v) d ->
  PyDict.get String.eqb k d = Some v.
Proof.
  induction d as [| [k' v'] d IH]; simpl; intros Hnd HIn; [contradiction |].
  inversion Hnd as [| x l Hx Hl]; subst.
  destruct HIn as [[= -> ->] | HIn].
  - now rewrite String.eqb_refl.
  - destruct (String.eqb_spec k k') as [-> | Hk].
    + exfalso. apply Hx. change k' with (fst (k', v)). now apply in_map.
    + now apply IH.
Qed.

Lemma map_fst_flat_map {A B C} (g : A -> list (B * C)) l :
  map fst (flat_map g l) = flat_map (fun a => map fst (g a)) l.
Proof.
  induction l as [| a l IH]; simpl; [reflexivity |].
  now rewrite map_app, IH.
Qed.

(** ** The month map *)

(** C2: the month map is total on 1..12, agrees with the stated
    convention, and each season receives exactly three months, every month
    lying in the group of one season only. *)
Theorem month_to_season_partition (m : Z) (Hm : 1 <= m <= 12) :
  month_to_season m = Some (spec_season m) /\
  (forall s, In m (months_of s) <-> s = spec_season m) /\
  months_of Winter = [1; 2; 12] /\
  months_of Spring = [3; 4; 5] /\
  months_of Summer = [6; 7; 8] /\
  months_of Autumn = [9; 10; 11].
Proof.
  assert (Hcases : In m calendar_months).
  { unfold calendar_months. simpl.
    assert (m = 1 \/ m = 2 \/ m = 3 \/ m = 4 \/ m = 5 \/ m = 6 \/ m = 7 \/
            m = 8 \/ m = 9 \/ m = 10 \/ m = 11 \/ m = 12) by lia.
    intuition auto. }
  split; [| split].
  - simpl in Hcases.
    repeat (destruct Hcases as [<- | Hcases]; [reflexivity |]).
    contradiction.
  - intros s. simpl in Hcases.
    repeat (destruct Hcases as [<- | Hcases];
            [destruct s; vm_compute; split; intros H;
             repeat (match goal with
                     | H : _ \/ _ |- _ => destruct H
                     | H : False |- _ => contradiction
                     end);
             try discriminate; try reflexivity; auto 14 |]).
    contradiction.
  - repeat split; reflexivity.
Qed.

Lemma month_to_season_partition_witness :
  month_to_season 12 = Some Winter /\ In 12 (months_of Winter).
Proof.
  destruct (month_to_season_partition 12 ltac:(lia)) as (H1 & H2 & _).
  split; [exact H1 | apply H2; reflexivity].
Defined.


(** ** The fetcher *)

Lemma get_historical_temperature_run lat lng w :
  get_historical_temperature lat lng w = (advance 1 w, fetch_result w lat lng).
Proof.
  unfold get_historical_temperature, fetch_result, bind, now, requests_get,
    lift.
  simpl. destruct (remote w _) as [| body]; [reflexivity |].
  destruct (response_json body); reflexivity.
Qed.

Lemma parse_response_not_in data :
  py_in "daily" data = inr false -> parse_response data = inr None.
Proof. intros H. unfold parse_response. now rewrite H. Qed.

Lemma fetch_result_not_in w lat lng data :
  remote w (mkRequest lat lng (clock w (ticks w))) = Response (Some data) ->
  py_in "daily" data = inr false ->
  fetch_result w lat lng = inr None.
Proof.
  intros Hr Hd. unfold fetch_result. rewrite Hr. simpl.
  now apply parse_response_not_in.
Qed.

(** ** The fetch loop *)

(** One turn of the loop on a location whose fetch returns [None]: the
    state is left as it was. *)
Lemma fetch_loop_skip coord rest st w :
  fetch_result w (loc_latitude coord) (loc_longitude coord) = inr None ->
  fetch_loop (coord :: rest) st w = fetch_loop rest st (advance 1 w).
Proof.
  intros H. cbn [fetch_loop]. unfold bind at 1.
  rewrite get_historical_temperature_run, H. reflexivity.
Qed.

(** One turn of the loop on a location whose fetch returns a frame. *)
Lemma fetch_loop_keep coord rest st w df :
  fetch_result w (loc_latitude coord) (loc_longitude coord)
    = inr (Some df) ->
  fetch_loop (coord :: rest) st w =
  fetch_loop rest
    ((fst st ++
        [mkSummary (loc_latitude coord) (loc_longitude coord)
           (series_mean (map temperature_mean df))
           (loc_aim_id coord) (loc_address coord)])%list,
     PyDict.set String.eqb (loc_aim_id coord) df (snd st))
    (advance 1 w).
Proof.
  intros H. cbn [fetch_loop]. unfold bind at 1.
  rewrite get_historical_temperature_run, H. reflexivity.
Qed.

Lemma fetch_all_ok coords : forall w w' rs,
  fetch_all coords w = (w', inr rs) ->
  w' = advance (List.length coords) w /\ List.length rs = List.length coords.
Proof.
  induction coords as [| c coords IH]; intros w w' rs; simpl.
  - unfold ret. intros [= <- <-]. now rewrite advance_0.
  - unfold bind at 1. rewrite get_historical_temperature_run.
    destruct (fetch_result w _ _) as [e | r]; [discriminate |].
    unfold bind at 1.
    destruct (fetch_all coords (advance 1 w)) as [w1 [e | rs1]] eqn:E;
      [discriminate |].
    unfold ret. intros [= <- <-].
    destruct (IH _ _ _ E) as [-> Hlen]. split.
    + rewrite advance_advance. f_equal. lia.
    + simpl. now rewrite Hlen.
Qed.

Lemma fetch_all_files coords : forall w w' x,
  fetch_all coords w = (w', x) ->
  files w' = files w /\ dirs w' = dirs w /\ clock w' = clock w /\
  remote w' = remote w.
Proof.
  induction coords as [| c coords IH]; intros w w' x; simpl.
  - unfold ret. intros [= <- <-]. auto.
  - unfold bind at 1. rewrite get_historical_temperature_run.
    destruct (fetch_result w _ _) as [e | r].
    + intros [= <- <-]. simpl. auto.
    + unfold bind at 1.
      destruct (fetch_all coords (advance 1 w)) as [w1 [e | rs1]] eqn:E;
        unfold ret; intros [= <- <-]; apply (IH _ _ _ E).
Qed.

(** The result of the [k]-th fetch of a run is the result of one call at
    the [k]-th clock reading. *)
Lemma fetch_all_nth coords : forall w w' rs k coord,
  fetch_all coords w = (w', inr rs) ->
  nth_error coords k = Some coord ->
  exists r,
    nth_error rs k = Some r /\
    fetch_result (advance k w) (loc_latitude coord) (loc_longitude coord)
      = inr r.
Proof.
  induction coords as [| c coords IH]; intros w w' rs k coord; simpl.
  - destruct k; discriminate.
  - unfold bind at 1. rewrite get_historical_temperature_run.
    destruct (fetch_result w _ _) as [e | r] eqn:Er; [discriminate |].
    unfold bind at 1.
    destruct (fetch_all coords (advance 1 w)) as [w1 [e | rs1]] eqn:E;
      [discriminate |].
    unfold ret. intros [= <- <-] Hk.
    destruct k as [| k]; simpl in Hk.
    + injection Hk as <-. exists r. rewrite advance_0. auto.
    + destruct (IH _ _ _ _ _ E Hk) as (r' & Hr' & Hf).
      exists r'. split; [exact Hr' |].
      rewrite advance_advance in Hf.
      replace (S k) with (k + 1)%nat by lia. exact Hf.
Qed.

Lemma fetch_loop_ok coords : forall st w w' rs,
  fetch_all coords w = (w', inr rs) ->
  fetch_loop coords st w =
  (w', inr ((fst st ++ map summary_of (successes coords rs))%list,
            PyDict.set_all String.eqb (map frame_of (successes coords rs))
              (snd st))).
Proof.
  induction coords as [| c coords IH]; intros st w w' rs; simpl.
  - unfold ret. intros [= <- <-]. simpl. rewrite app_nil_r.
    now destruct st.
  - unfold bind at 1 3. rewrite get_historical_temperature_run.
    destruct (fetch_result w _ _) as [e | r]; [discriminate |].
    unfold bind at 1.
    destruct (fetch_all coords (advance 1 w)) as [w1 [e | rs1]] eqn:E;
      [discriminate |].
    unfold ret. intros [= <- <-].
    rewrite (IH _ _ _ _ E).
    destruct r as [df |]; simpl; [| reflexivity].
    now rewrite <- app_assoc.
Qed.

Lemma fetch_loop_raise coords : forall st w w' e,
  fetch_all coords w = (w', inl e) ->
  fetch_loop coords st w = (w', inl e).
Proof.
  induction coords as [| c coords IH]; intros st w w' e; simpl.
  - unfold ret. discriminate.
  - unfold bind at 1 3. rewrite get_historical_temperature_run.
    destruct (fetch_result w _ _) as [e0 | r];
      [intros [= <- <-]; reflexivity |].
    unfold bind at 1.
    destruct (fetch_all coords (advance 1 w)) as [w1 [e1 | rs1]] eqn:E;
      unfold ret; [| discriminate].
    intros [= <- <-]. now apply IH.
Qed.

(** ** Identifiers of the locations *)

Lemma locations_of_ids doc :
  map loc_aim_id (locations_of doc) = PyDict.keys (yaml_safe_load doc).
Proof.
  unfold locations_of, get_coordinates_from_yaml, PyDict.keys.
  rewrite map_map. reflexivity.
Qed.

Lemma locations_of_NoDup doc : NoDup (map loc_aim_id (locations_of doc)).
Proof.
  rewrite locations_of_ids. unfold yaml_safe_load.
  apply dict_set_all_NoDup. constructor.
Qed.

Lemma successes_In coords : forall rs cd,
  In cd (successes coords rs) -> In (fst cd) coords.
Proof.
  induction coords as [| c coords IH]; intros rs cd; simpl.
  - tauto.
  - destruct rs as [| [df |] rs]; simpl.
    + tauto.
    + intros [<- | H]; [now left | right; eauto].
    + intros H. right. eauto.
Qed.

Lemma successes_NoDup coords : forall rs,
  NoDup (map loc_aim_id coords) ->
  NoDup (map fst (map frame_of (successes coords rs))).
Proof.
  induction coords as [| c coords IH]; intros rs Hnd; simpl.
  - constructor.
  - inversion Hnd as [| x l Hx Hl]; subst.
    destruct rs as [| [df |] rs]; simpl; [constructor | | now apply IH].
    constructor; [| now apply IH].
    intros HIn. apply Hx.
    rewrite map_map in HIn. apply in_map_iff in HIn.
    destruct HIn as (cd & Hid & Hcd). simpl in Hid. rewrite <- Hid.
    apply in_map. eapply successes_In. exact Hcd.
Qed.

Lemma successes_length coords : forall rs,
  List.length rs = List.length coords ->
  List.length (successes coords rs) =
  List.length (filter is_frame rs).
Proof.
  induction coords as [| c coords IH]; intros [| [df |] rs]; simpl;
    try discriminate; auto.
Qed.

(** The state of the loop at its end: one summary and one frame for each
    location whose fetch returned a frame, in the order of the
    locations. *)
Lemma fetch_loop_collects doc w w' rs :
  fetch_all (locations_of doc) w = (w', inr rs) ->
  fetch_loop (locations_of doc) ([], []) w =
  (w', inr (map summary_of (successes (locations_of doc) rs),
            map frame_of (successes (locations_of doc) rs))).
Proof.
  intros H. rewrite (fetch_loop_ok _ _ _ _ _ H). simpl.
  rewrite dict_set_all_distinct; [reflexivity |].
  simpl. apply successes_NoDup, locations_of_NoDup.
Qed.

(** ** The exporters *)

Lemma heat_layer_data td :
  heat_layer (map (fun d => (sum_lat d, sum_lng d, sum_avg_temp d)) td) =
  if has_nan_weight td then inl ValueError
  else inr (map (fun d => (sum_lat d, sum_lng d, sum_avg_temp d)) td).
Proof.
  unfold heat_layer, has_nan_weight.
  replace (existsb (fun p : Q * Q * Cell => is_nan (snd p))
             (map (fun d => (sum_lat d, sum_lng d, sum_avg_temp d)) td))
    with (existsb (fun d => is_nan (sum_avg_temp d)) td); [reflexivity |].
  induction td as [| d td IH]; simpl; [reflexivity | now rewrite IH].
Qed.

Lemma create_heatmap_run d td out w :
  has_nan_weight (d :: td) = false ->
  create_heatmap (d :: td) out w =
  (with_files (advance 1 w) [heatmap_file (d :: td) out (clock w (ticks w))],
   inr (fst (heatmap_file (d :: td) out (clock w (ticks w))))).
Proof.
  intros H. unfold create_heatmap.
  unfold bind at 1. unfold lift at 1. cbn [py_mean map].
  unfold bind at 1. unfold lift at 1.
  unfold bind at 1. unfold lift at 1.
  change (heat_layer
            ((sum_lat d, sum_lng d, sum_avg_temp d)
             :: map (fun d0 => (sum_lat d0, sum_lng d0, sum_avg_temp d0)) td))
    with (heat_layer
            (map (fun d0 => (sum_lat d0, sum_lng d0, sum_avg_temp d0))
               (d :: td))).
  rewrite heat_layer_data, H. reflexivity.
Qed.

(** A NaN weight: the heat layer is refused before the clock is read
    and before anything is written. *)
Lemma create_heatmap_nan d td out w :
  has_nan_weight (d :: td) = true ->
  create_heatmap (d :: td) out w = (w, inl ValueError).
Proof.
  intros H. unfold create_heatmap.
  unfold bind at 1. unfold lift at 1. cbn [py_mean map].
  unfold bind at 1. unfold lift at 1.
  unfold bind at 1. unfold lift at 1.
  change (heat_layer
            ((sum_lat d, sum_lng d, sum_avg_temp d)
             :: map (fun d0 => (sum_lat d0, sum_lng d0, sum_avg_temp d0)) td))
    with (heat_layer
            (map (fun d0 => (sum_lat d0, sum_lng d0, sum_avg_temp d0))
               (d :: td))).
  rewrite heat_layer_data, H. reflexivity.
Qed.

Lemma create_heatmap_empty out w :
  create_heatmap [] out w = (w, inl ZeroDivisionError).
Proof. reflexivity. Qed.

Lemma create_heatmap_no_zero_division d td out w :
  snd (create_heatmap (d :: td) out w) <> inl ZeroDivisionError.
Proof.
  destruct (has_nan_weight (d :: td)) eqn:E.
  - rewrite (create_heatmap_nan _ _ _ _ E). discriminate.
  - rewrite (create_heatmap_run _ _ _ _ E). discriminate.
Qed.

Lemma create_trend_plots_run dd out w :
  create_trend_plots dd out w =
  (with_files (advance 1 w) (trend_files dd out (clock w (ticks w))), inr tt).
Proof.
  unfold create_trend_plots, bind, now.
  rewrite for_each_write. reflexivity.
Qed.

Lemma save_temperature_data_run td dd out w :
  save_temperature_data td dd out w =
  (with_files (advance 1 w) (saved_files td dd out (clock w (ticks w))),
   inr tt).
Proof.
  unfold save_temperature_data.
  unfold bind at 1. unfold now.
  unfold bind at 1. unfold write_file at 1.
  unfold bind at 1. rewrite for_each_write.
  unfold write_file, with_files, saved_files, detail_csv_files, advance.
  simpl. rewrite !map_map. simpl.
  rewrite <- !app_assoc. reflexivity.
Qed.

(** The block under [if temperature_data:]. *)
Lemma export_run td dd out w :
  has_nan_weight td = false ->
  match td with
  | [] => ret tt
  | _ :: _ =>
      do heatmap_file <- create_heatmap td out;
      create_trend_plots dd out ;;
      save_temperature_data td dd out
  end w =
  (match td with
   | [] => w
   | _ :: _ => with_files (advance 3 w) (run_files td dd out w)
   end, inr tt).
Proof.
  intros H.
  destruct td as [| d td]; [reflexivity |].
  unfold bind at 1. rewrite (create_heatmap_run _ _ _ _ H).
  unfold bind at 1. rewrite create_trend_plots_run.
  rewrite save_temperature_data_run.
  unfold run_files, with_files, advance. simpl.
  rewrite <- !app_assoc. reflexivity.
Qed.

Lemma export_nan td dd out w :
  has_nan_weight td = true ->
  match td with
  | [] => ret tt
  | _ :: _ =>
      do heatmap_file <- create_heatmap td out;
      create_trend_plots dd out ;;
      save_temperature_data td dd out
  end w = (w, inl ValueError).
Proof.
  intros H.
  destruct td as [| d td]; [discriminate |].
  unfold bind at 1. now rewrite (create_heatmap_nan _ _ _ _ H).
Qed.

Lemma create_directories_run out w :
  files (fst (create_directories out w)) = files w /\
  clock (fst (create_directories out w)) = clock w /\
  ticks (fst (create_directories out w)) = ticks w /\
  remote (fst (create_directories out w)) = remote w /\
  snd (create_directories out w) = inr tt.
Proof. unfold create_directories. simpl. auto. Qed.

(** The driver after its fetches have returned: the block under
    [if temperature_data:] runs on what the loop has collected. *)
Lemma pipeline_exports config doc w w' rs :
  fetch_all (locations_of doc) (start config w) = (w', inr rs) ->
  let succ := successes (locations_of doc) rs in
  let td := map summary_of succ in
  let dd := map frame_of succ in
  process_temperature_pipeline config doc w =
  match td with
  | [] => ret tt
  | _ :: _ =>
      do heatmap_file <- create_heatmap td (output_path_of config);
      create_trend_plots dd (output_path_of config) ;;
      save_temperature_data td dd (output_path_of config)
  end w'.
Proof.
  intros H succ td dd.
  unfold process_temperature_pipeline.
  fold (output_path_of config). fold (locations_of doc).
  unfold bind at 1. unfold start in H.
  destruct (create_directories (output_path_of config) w) as [w1 r1] eqn:E.
  assert (Hr : r1 = inr tt).
  { pose proof (create_directories_run (output_path_of config) w) as P.
    rewrite E in P. simpl in P. tauto. }
  subst r1. simpl in H.
  unfold bind at 1. rewrite (fetch_loop_collects _ _ _ _ H).
  reflexivity.
Qed.

(** A run whose fetches return and whose weights are numbers writes the
    files of the locations whose fetch returned a frame. *)
Lemma pipeline_completes config doc w w' rs :
  fetch_all (locations_of doc) (start config w) = (w', inr rs) ->
  let succ := successes (locations_of doc) rs in
  let td := map summary_of succ in
  let dd := map frame_of succ in
  has_nan_weight td = false ->
  process_temperature_pipeline config doc w =
  (match td with
   | [] => w'
   | _ :: _ =>
       with_files (advance 3 w') (run_files td dd (output_path_of config) w')
   end, inr tt).
Proof.
  intros H succ td dd Hnan.
  rewrite (pipeline_exports _ _ _ _ _ H). fold succ. fold td. fold dd.
  now apply export_run.
Qed.

(** A run whose fetches return a frame without a mean temperature stops
    in [create_heatmap], before the first file. *)
Lemma pipeline_nan config doc w w' rs :
  fetch_all (locations_of doc) (start config w) = (w', inr rs) ->
  has_nan_weight (map summary_of (successes (locations_of doc) rs)) = true ->
  process_temperature_pipeline config doc w = (w', inl ValueError).
Proof.
  intros H Hnan.
  rewrite (pipeline_exports _ _ _ _ _ H).
  now apply export_nan.
Qed.

(** A run in which a fetch raises stops there, with the exception. *)
Lemma pipeline_raises config doc w w' e :
  fetch_all (locations_of doc) (start config w) = (w', inl e) ->
  process_temperature_pipeline config doc w = (w', inl e).
Proof.
  intros H.
  unfold process_temperature_pipeline.
  fold (output_path_of config). fold (locations_of doc).
  unfold bind at 1. unfold start in H.
  destruct (create_directories (output_path_of config) w) as [w1 r1] eqn:E.
  assert (Hr : r1 = inr tt).
  { pose proof (create_directories_run (output_path_of config) w) as P.
    rewrite E in P. simpl in P. tauto. }
  subst r1. simpl in H.
  unfold bind at 1. rewrite (fetch_loop_raise _ _ _ _ _ H). reflexivity.
Qed.

Lemma start_files config w : files (start config w) = files w.
Proof. apply create_directories_run. Qed.

(** ** What a run writes *)

Lemma pipeline_outputs config doc w w' rs :
  fetch_all (locations_of doc) (start config w) = (w', inr rs) ->
  let succ := successes (locations_of doc) rs in
  has_nan_weight (map summary_of succ) = false ->
  snd (process_temperature_pipeline config doc w) = inr tt /\
  outputs w (fst (process_temperature_pipeline config doc w)) =
  run_files (map summary_of succ) (map frame_of succ)
    (output_path_of config) w'.
Proof.
  intros H succ Hnan. rewrite (pipeline_completes _ _ _ _ _ H Hnan).
  split; [reflexivity |]. simpl fst. fold succ.
  destruct (fetch_all_files _ _ _ _ H) as (Hf & _).
  rewrite start_files in Hf.
  destruct (map summary_of succ) as [| d td] eqn:E.
  - simpl. now apply outputs_same_files.
  - unfold outputs, with_files. simpl files. rewrite Hf.
    rewrite skipn_app, skipn_all, Nat.sub_diag. reflexivity.
Qed.

(** A run that has ended without an exception: every fetch has returned,
    no weight is NaN, and the files written are those of the locations
    whose fetch returned a frame. *)
Lemma pipeline_done config doc w :
  snd (process_temperature_pipeline config doc w) = inr tt ->
  exists w' rs,
    fetch_all (locations_of doc) (start config w) = (w', inr rs) /\
    has_nan_weight (map summary_of (successes (locations_of doc) rs))
      = false /\
    outputs w (fst (process_temperature_pipeline config doc w)) =
    run_files (map summary_of (successes (locations_of doc) rs))
      (map frame_of (successes (locations_of doc) rs))
      (output_path_of config) w'.
Proof.
  intros Hdone.
  destruct (fetch_all (locations_of doc) (start config w))
    as [w' [e | rs]] eqn:E.
  - rewrite (pipeline_raises _ _ _ _ _ E) in Hdone. discriminate.
  - destruct (has_nan_weight
                (map summary_of (successes (locations_of doc) rs))) eqn:En.
    + rewrite (pipeline_nan _ _ _ _ _ E En) in Hdone. discriminate.
    + pose proof (pipeline_outputs config doc w w' rs E) as P.
      cbv zeta in P. destruct (P En) as [_ Hout].
      exists w', rs. auto.
Qed.

(** A run that ends in an exception raised before the first write
    leaves the files as they were. *)
Lemma pipeline_failed_outputs config doc w w' e :
  process_temperature_pipeline config doc w = (w', inl e) ->
  files w' = files (start config w) ->
  outputs w (fst (process_temperature_pipeline config doc w)) = [].
Proof.
  intros H Hf. rewrite H. simpl. apply outputs_same_files.
  now rewrite Hf, start_files.
Qed.

Lemma successes_skip coords : forall rs k coord,
  NoDup (map loc_aim_id coords) ->
  nth_error coords k = Some coord ->
  nth_error rs k = Some None ->
  ~ In (loc_aim_id coord) (map fst (map frame_of (successes coords rs))).
Proof.
  induction coords as [| c coords IH]; intros rs k coord Hnd Hc Hr.
  - destruct k; discriminate.
  - inversion Hnd as [| x l Hx Hl]; subst.
    destruct k as [| k]; simpl in Hc.
    + injection Hc as <-. destruct rs as [| r rs]; [discriminate |].
      simpl in Hr. injection Hr as ->. simpl.
      intros HIn. apply Hx.
      rewrite map_map in HIn. apply in_map_iff in HIn.
      destruct HIn as (cd & Hid & Hcd). simpl in Hid. rewrite <- Hid.
      apply in_map. eapply successes_In. exact Hcd.
    + destruct rs as [| r rs]; [discriminate |]. simpl in Hr.
      assert (Hrest := IH rs k coord Hl Hc Hr).
      destruct r as [df |]; simpl; [| exact Hrest].
      intros [E | HIn]; [| now apply Hrest].
      apply Hx. rewrite E. apply in_map. eapply nth_error_In. exact Hc.
Qed.

Lemma successes_keep coords : forall rs k coord df,
  nth_error coords k = Some coord ->
  nth_error rs k = Some (Some df) ->
  In (coord, df) (successes coords rs).
Proof.
  induction coords as [| c coords IH]; intros rs k coord df Hc Hr.
  - destruct k; discriminate.
  - destruct rs as [| r rs]; [destruct k; discriminate |].
    destruct k as [| k]; simpl in Hc, Hr.
    + injection Hc as <-. injection Hr as ->. simpl. now left.
    + destruct r; simpl; [right |]; eauto.
Qed.

(** A location is among the collected ones exactly when its fetch
    returned a frame. *)
Lemma successes_member coords rs k coord r :
  NoDup (map loc_aim_id coords) ->
  nth_error coords k = Some coord ->
  nth_error rs k = Some r ->
  In (loc_aim_id coord)
     (map (fun cd => loc_aim_id (fst cd)) (successes coords rs)) <->
  r <> None.
Proof.
  intros Hnd Hk Hr. split.
  - intros HIn ->.
    apply (successes_skip _ _ _ _ Hnd Hk Hr).
    now rewrite map_map.
  - destruct r as [df |]; [intros _ | congruence].
    apply in_map_iff. exists (coord, df). split; [reflexivity |].
    eapply successes_keep; eauto.
Qed.

(** C3 (amended): a location whose response has no ['daily'] in it makes
    the fetcher return [None]; the loop leaves the location out and goes
    on with the next one.  In a run that ends without an exception that
    location is in nothing the run writes: the files are those of the
    locations whose fetch returned a frame, every one of them kept. *)
Theorem missing_daily_location_is_skipped
  config doc w k coord data
  (Hk : nth_error (locations_of doc) k = Some coord)
  (Hresp : remote w (mkRequest (loc_latitude coord) (loc_longitude coord)
                       (clock w (k + ticks w)%nat))
           = Response (Some data))
  (Hno : py_in "daily" data = inr false)
  (Hdone : snd (process_temperature_pipeline config doc w) = inr tt) :
  (forall rest st w0,
     remote w0 (mkRequest (loc_latitude coord) (loc_longitude coord)
                  (clock w0 (ticks w0)))
       = Response (Some data) ->
     fetch_loop (coord :: rest) st w0 = fetch_loop rest st (advance 1 w0)) /\
  exists w' rs,
    fetch_all (locations_of doc) (start config w) = (w', inr rs) /\
    nth_error rs k = Some None /\
    let succ := successes (locations_of doc) rs in
    outputs w (fst (process_temperature_pipeline config doc w)) =
      run_files (map summary_of succ) (map frame_of succ)
        (output_path_of config) w' /\
    ~ In (loc_aim_id coord) (map sum_aim_id (map summary_of succ)) /\
    ~ In (loc_aim_id coord) (PyDict.keys (map frame_of succ)) /\
    (forall j c df,
       nth_error (locations_of doc) j = Some c ->
       nth_error rs j = Some (Some df) -> In (c, df) succ).
Proof.
  split.
  - intros rest st w0 Hr0. apply fetch_loop_skip.
    now apply fetch_result_not_in with (data := data).
  - destruct (pipeline_done _ _ _ Hdone) as (w' & rs & Hrun & _ & Hout).
    exists w', rs. split; [exact Hrun |].
    destruct (fetch_all_nth _ _ _ _ _ _ Hrun Hk) as (r & Hr & Hf).
    assert (Hnone : r = None).
    { assert (E : fetch_result (advance k (start config w))
                    (loc_latitude coord) (loc_longitude coord) = inr None).
      { apply fetch_result_not_in with (data := data); [| exact Hno].
        exact Hresp. }
      rewrite E in Hf. now injection Hf. }
    subst r. split; [exact Hr |].
    assert (Hskip := successes_skip _ _ _ _ (locations_of_NoDup doc) Hk Hr).
    cbv zeta. split; [exact Hout |].
    split; [| split].
    + rewrite !map_map in *. exact Hskip.
    + unfold PyDict.keys. exact Hskip.
    + intros j c df Hc Hj. eapply successes_keep; eauto.
Qed.

Lemma filter_detail_trend dd out t :
  filter is_detail_csv (trend_files dd out t) = [].
Proof. induction dd as [| item dd IH]; simpl; auto. Qed.

Lemma filter_detail_csv td dd out t :
  filter is_detail_csv (detail_csv_files td dd out t) =
  detail_csv_files td dd out t.
Proof. induction dd as [| item dd IH]; simpl; [| rewrite IH]; auto. Qed.

Lemma filter_detail_run td dd out w :
  filter is_detail_csv (run_files td dd out w) =
  match td with
  | [] => []
  | _ :: _ => detail_csv_files td dd out (clock w (2 + ticks w)%nat)
  end.
Proof.
  destruct td as [| d td]; [reflexivity |].
  unfold run_files, saved_files.
  cbn [filter is_detail_csv heatmap_file snd].
  rewrite filter_app, filter_detail_trend.
  cbn [filter is_detail_csv snd app].
  rewrite filter_app, filter_detail_csv. simpl. now rewrite app_nil_r.
Qed.

Lemma csv_name_inj out ts (a b : string) :
  path_join out ("temperature_data_" ++ a ++ "_" ++ ts ++ ".csv") =
  path_join out ("temperature_data_" ++ b ++ "_" ++ ts ++ ".csv") ->
  a = b.
Proof.
  intros H. apply path_join_inj in H. apply append_inv_head in H.
  now apply append_inv_tail in H.
Qed.

Lemma detail_csv_names_NoDup td dd out t :
  NoDup (map fst dd) -> NoDup (map fst (detail_csv_files td dd out t)).
Proof.
  unfold detail_csv_files. rewrite map_map. cbn [fst].
  generalize (strftime t) as ts. intros ts.
  induction dd as [| item dd IH]; cbn [map]; intros Hnd; [constructor |].
  inversion Hnd as [| x l Hx Hl]; subst.
  constructor; [| now apply IH].
  intros HIn. apply Hx. apply in_map_iff in HIn.
  destruct HIn as (item' & Hname & Hitem').
  apply csv_name_inj in Hname. rewrite <- Hname. now apply in_map.
Qed.

(** C4 (amended): in a run that ends without an exception, the
    per-location detail CSV files written are as many as the locations
    whose fetch returned a data frame, and they are distinct files. *)
Theorem detail_csv_count config doc w
  (Hdone : snd (process_temperature_pipeline config doc w) = inr tt) :
  exists w' rs,
    fetch_all (locations_of doc) (start config w) = (w', inr rs) /\
    let csvs :=
      filter is_detail_csv
        (outputs w (fst (process_temperature_pipeline config doc w))) in
    List.length csvs = List.length (filter is_frame rs) /\
    NoDup (map fst csvs).
Proof.
  destruct (pipeline_done _ _ _ Hdone) as (w' & rs & Hrun & _ & Hout).
  exists w', rs. split; [exact Hrun |]. cbv zeta.
  rewrite Hout. rewrite filter_detail_run.
  destruct (fetch_all_ok _ _ _ _ Hrun) as [_ Hlen].
  rewrite <- (successes_length _ _ Hlen).
  destruct (successes (locations_of doc) rs) as [| cd succ] eqn:E.
  - simpl. split; [reflexivity | constructor].
  - cbn [map]. split.
    + unfold detail_csv_files. rewrite length_map.
      change (frame_of cd :: map frame_of succ)
        with (map frame_of (cd :: succ)).
      now rewrite length_map.
    + apply detail_csv_names_NoDup.
      change (frame_of cd :: map frame_of succ)
        with (map frame_of (cd :: succ)).
      rewrite <- E.
      apply successes_NoDup, locations_of_NoDup.
Qed.

(** C5: when no location's fetch returns a data frame, the run leaves
    the files as they were: no heat-map, no CSV, no JSON. *)
Theorem no_success_no_output config doc w
  (Hnone : forall w' rs,
     fetch_all (locations_of doc) (start config w) = (w', inr rs) ->
     forall r, In r rs -> r = None) :
  files (fst (process_temperature_pipeline config doc w)) = files w /\
  outputs w (fst (process_temperature_pipeline config doc w)) = [].
Proof.
  assert (Hfiles :
    files (fst (process_temperature_pipeline config doc w)) = files w).
  { destruct (fetch_all (locations_of doc) (start config w))
      as [w' [e | rs]] eqn:E.
    - rewrite (pipeline_raises _ _ _ _ _ E). simpl.
      destruct (fetch_all_files _ _ _ _ E) as (Hf & _).
      now rewrite Hf, start_files.
    - assert (Hs : successes (locations_of doc) rs = []).
      { specialize (Hnone _ _ eq_refl). clear E.
        revert rs Hnone.
        induction (locations_of doc) as [| c coords IH]; intros rs Hn;
          [reflexivity |].
        destruct rs as [| r rs]; [reflexivity |].
        rewrite (Hn r (or_introl eq_refl)). simpl.
        apply IH. intros r' Hr'. apply Hn. now right. }
      rewrite (pipeline_exports _ _ _ _ _ E). rewrite Hs. simpl.
      destruct (fetch_all_files _ _ _ _ E) as (Hf & _).
      now rewrite Hf, start_files. }
  split; [exact Hfiles | now apply outputs_same_files].
Qed.

Lemma filter_heatmap_trend dd out t :
  filter is_heatmap (trend_files dd out t) = [].
Proof. induction dd as [| item dd IH]; simpl; auto. Qed.

Lemma filter_heatmap_csv td dd out t :
  filter is_heatmap (detail_csv_files td dd out t) = [].
Proof. induction dd as [| item dd IH]; simpl; auto. Qed.

Lemma filter_heatmap_run d td dd out w :
  filter is_heatmap (run_files (d :: td) dd out w) =
  [heatmap_file (d :: td) out (clock w (ticks w))].
Proof.
  unfold run_files, saved_files.
  cbn [filter is_heatmap heatmap_file snd].
  rewrite filter_app, filter_heatmap_trend.
  cbn [filter is_heatmap snd app].
  rewrite filter_app, filter_heatmap_csv. reflexivity.
Qed.

Lemma has_nan_weight_summaries succ :
  has_nan_weight (map summary_of succ) = true <->
  exists cd, In cd succ /\ series_mean (map temperature_mean (snd cd)) = None.
Proof.
  unfold has_nan_weight. rewrite existsb_exists. split.
  - intros (d & Hd & Hnan). apply in_map_iff in Hd.
    destruct Hd as (cd & <- & Hcd). exists cd. split; [exact Hcd |].
    simpl in Hnan. now destruct (series_mean _).
  - intros (cd & Hcd & Hnone). exists (summary_of cd).
    split; [now apply in_map |]. simpl. now rewrite Hnone.
Qed.

Lemma has_nan_weight_none succ :
  (forall cd, In cd succ ->
     series_mean (map temperature_mean (snd cd)) <> None) ->
  has_nan_weight (map summary_of succ) = false.
Proof.
  intros H. destruct (has_nan_weight (map summary_of succ)) eqn:E;
    [| reflexivity].
  apply has_nan_weight_summaries in E. destruct E as (cd & Hcd & Hnone).
  now destruct (H cd Hcd).
Qed.

Lemma heatmap_written config doc w w' rs :
  fetch_all (locations_of doc) (start config w) = (w', inr rs) ->
  let succ := successes (locations_of doc) rs in
  let written :=
    outputs w (fst (process_temperature_pipeline config doc w)) in
  has_nan_weight (map summary_of succ) = false ->
  match succ with
  | [] => written = []
  | _ :: _ =>
      filter is_heatmap written =
      [heatmap_file (map summary_of succ) (output_path_of config)
         (clock w' (ticks w'))] /\
      map_location_of (map summary_of succ) =
        (arithmetic_mean (map (fun cd => loc_latitude (fst cd)) succ),
         arithmetic_mean (map (fun cd => loc_longitude (fst cd)) succ)) /\
      map (fun d => (sum_lat d, sum_lng d, sum_avg_temp d))
          (map summary_of succ) =
        map (fun cd =>
               (loc_latitude (fst cd), loc_longitude (fst cd),
                series_mean (map temperature_mean (snd cd))))
            succ
  end.
Proof.
  intros Hrun succ written Hnan. unfold written.
  pose proof (pipeline_outputs _ _ _ _ _ Hrun) as P. cbv zeta in P.
  destruct (P Hnan) as [_ Hout]. rewrite Hout.
  fold succ. destruct succ as [| cd succ]; [reflexivity |].
  cbn [map]. rewrite filter_heatmap_run.
  split; [reflexivity |].
  unfold map_location_of. cbn [map summary_of sum_lat sum_lng sum_avg_temp].
  rewrite !map_map. split; reflexivity.
Qed.

Lemma In_filter_heatmap path m (l : list (string * Artifact)) :
  In (path, HeatmapHtml m) l -> In (path, HeatmapHtml m) (filter is_heatmap l).
Proof. intros H. apply filter_In. split; [exact H | reflexivity]. Qed.

(** C7 (amended): every heat-map a run writes is centred at the mean,
    [sum/len], of the latitudes and of the longitudes of the locations
    whose fetch returned a frame, each of them weighted by the mean of its
    [temperature_mean] column, and no weight is NaN.  When the fetches
    return, at least one of them a frame, and every such mean is a
    number, the run writes exactly one heat-map; when one of the means
    is NaN the run ends in [ValueError] and writes nothing. *)
Theorem heatmap_centre_and_weights config doc w :
  let final := process_temperature_pipeline config doc w in
  let written := outputs w (fst final) in
  (forall path m,
     In (path, HeatmapHtml m) written ->
     exists w' rs,
       fetch_all (locations_of doc) (start config w) = (w', inr rs) /\
       let succ := successes (locations_of doc) rs in
       succ <> [] /\
       map_location m =
         (arithmetic_mean (map (fun cd => loc_latitude (fst cd)) succ),
          arithmetic_mean (map (fun cd => loc_longitude (fst cd)) succ)) /\
       heatmap_data m =
         map (fun cd =>
                (loc_latitude (fst cd), loc_longitude (fst cd),
                 series_mean (map temperature_mean (snd cd))))
             succ /\
       forall p, In p (heatmap_data m) -> snd p <> None) /\
  (forall w' rs,
     fetch_all (locations_of doc) (start config w) = (w', inr rs) ->
     let succ := successes (locations_of doc) rs in
     succ <> [] ->
     (forall cd, In cd succ ->
        series_mean (map temperature_mean (snd cd)) <> None) ->
     exists path m, filter is_heatmap written = [(path, HeatmapHtml m)]) /\
  (forall w' rs cd,
     fetch_all (locations_of doc) (start config w) = (w', inr rs) ->
     In cd (successes (locations_of doc) rs) ->
     series_mean (map temperature_mean (snd cd)) = None ->
     snd final = inl ValueError /\ written = []).
Proof.
  intros final written. split; [| split].
  - intros path m HIn.
    destruct (fetch_all (locations_of doc) (start config w))
      as [w' [e | rs]] eqn:E.
    + exfalso. unfold written, final in HIn.
      destruct (fetch_all_files _ _ _ _ E) as (Hf & _).
      rewrite (pipeline_failed_outputs _ _ _ _ _
                 (pipeline_raises _ _ _ _ _ E) Hf) in HIn.
      contradiction.
    + destruct (has_nan_weight
                  (map summary_of (successes (locations_of doc) rs))) eqn:En.
      * exfalso. unfold written, final in HIn.
        destruct (fetch_all_files _ _ _ _ E) as (Hf & _).
        rewrite (pipeline_failed_outputs _ _ _ _ _
                   (pipeline_nan _ _ _ _ _ E En) Hf) in HIn.
        contradiction.
      * exists w', rs. split; [reflexivity |]. cbv zeta.
        pose proof (heatmap_written _ _ _ _ _ E) as Hw. cbv zeta in Hw.
        specialize (Hw En). fold final in Hw. fold written in Hw.
        destruct (successes (locations_of doc) rs) as [| cd succ] eqn:Es.
        { rewrite Hw in HIn. contradiction. }
        destruct Hw as (Hfile & Hcentre & Hdata).
        apply In_filter_heatmap in HIn. rewrite Hfile in HIn.
        destruct HIn as [Heq | []].
        injection Heq as _ <-.
        split; [discriminate |].
        split; [exact Hcentre |]. split; [exact Hdata |].
        intros p Hp.
        change (In p (map (fun d => (sum_lat d, sum_lng d, sum_avg_temp d))
                        (map summary_of (cd :: succ)))) in Hp.
        rewrite Hdata in Hp.
        apply in_map_iff in Hp. destruct Hp as (cd' & <- & Hcd').
        cbn [snd]. intros Hnone.
        assert (Hex : has_nan_weight (map summary_of (cd :: succ)) = true).
        { apply has_nan_weight_summaries. exists cd'. auto. }
        rewrite Hex in En. discriminate.
  - intros w' rs Hrun succ Hsome Hnum.
    pose proof (heatmap_written _ _ _ _ _ Hrun) as Hw. cbv zeta in Hw.
    specialize (Hw (has_nan_weight_none _ Hnum)).
    fold succ in Hw. fold final in Hw. fold written in Hw.
    destruct succ as [| cd succ]; [contradiction |].
    destruct Hw as (Hfile & _).
    eexists. eexists. exact Hfile.
  - intros w' rs cd Hrun Hcd Hnone.
    assert (En : has_nan_weight
                   (map summary_of (successes (locations_of doc) rs)) = true).
    { apply has_nan_weight_summaries. exists cd. auto. }
    unfold written, final.
    destruct (fetch_all_files _ _ _ _ Hrun) as (Hf & _).
    split.
    + now rewrite (pipeline_nan _ _ _ _ _ Hrun En).
    + exact (pipeline_failed_outputs _ _ _ _ _
               (pipeline_nan _ _ _ _ _ Hrun En) Hf).
Qed.

(** ** Exceptions of a run *)

Lemma rbind_no_zero_division {A B} (r : Result A) (k : A -> Result B) :
  no_zero_division r -> (forall a, no_zero_division (k a)) ->
  no_zero_division (rbind r k).
Proof.
  unfold no_zero_division. destruct r as [e | a]; simpl; intros Hr Hk.
  - congruence.
  - apply Hk.
Qed.

Lemma py_getitem_no_zero_division data k :
  no_zero_division (py_getitem data k).
Proof.
  unfold no_zero_division, py_getitem.
  destruct data; try discriminate.
  destruct (PyDict.get _ _ _); discriminate.
Qed.

Lemma column_of_json_no_zero_division j :
  no_zero_division (column_of_json j).
Proof.
  unfold no_zero_division.
  destruct j as [| | | | items |]; try discriminate. simpl.
  induction items as [| j items IH]; simpl; [discriminate |].
  destruct j; simpl; try discriminate;
    destruct (cells_of_json items); simpl; congruence.
Qed.

Lemma make_frame_no_zero_division d a b c h p :
  no_zero_division (make_frame d a b c h p).
Proof.
  unfold no_zero_division, make_frame.
  destruct (_ && _)%bool; discriminate.
Qed.

Lemma parse_response_no_zero_division data :
  no_zero_division (parse_response data).
Proof.
  unfold parse_response.
  apply rbind_no_zero_division.
  - unfold no_zero_division. destruct data; discriminate.
  - intros [|]; [| discriminate].
    apply rbind_no_zero_division; [apply py_getitem_no_zero_division |].
    intros daily. apply rbind_no_zero_division; [| discriminate].
    unfold frame_of_daily.
    repeat (apply rbind_no_zero_division;
            [first [ apply py_getitem_no_zero_division
                   | apply column_of_json_no_zero_division
                   | destruct (to_datetime _); discriminate ]
            | intros ?]).
    apply make_frame_no_zero_division.
Qed.

Lemma fetch_result_no_zero_division w lat lng :
  no_zero_division (fetch_result w lat lng).
Proof.
  unfold fetch_result.
  destruct (remote w _) as [| body]; [discriminate |].
  apply rbind_no_zero_division.
  - destruct body; discriminate.
  - apply parse_response_no_zero_division.
Qed.

Lemma fetch_all_no_zero_division coords : forall w,
  no_zero_division (snd (fetch_all coords w)).
Proof.
  induction coords as [| c coords IH]; intros w; simpl.
  - discriminate.
  - unfold bind at 1. rewrite get_historical_temperature_run.
    pose proof (fetch_result_no_zero_division w (loc_latitude c)
                  (loc_longitude c)) as Hf.
    destruct (fetch_result w _ _) as [e | r].
    + unfold no_zero_division in *. simpl. congruence.
    + unfold bind at 1. specialize (IH (advance 1 w)).
      destruct (fetch_all coords (advance 1 w)) as [w1 [e | rs1]].
      * unfold no_zero_division in *. simpl in *. congruence.
      * discriminate.
Qed.

(** C10: [create_heatmap] raises [ZeroDivisionError] on the empty list
    and on no other list; the driver calls it on a non-empty list only, so
    that no run ends in that exception. *)
Theorem heatmap_division_guarded :
  (forall out w, snd (create_heatmap [] out w) = inl ZeroDivisionError) /\
  (forall d td out w,
     snd (create_heatmap (d :: td) out w) <> inl ZeroDivisionError) /\
  (forall config doc w,
     snd (process_temperature_pipeline config doc w)
       <> inl ZeroDivisionError).
Proof.
  split; [| split].
  - intros out w. reflexivity.
  - intros d td out w. apply create_heatmap_no_zero_division.
  - intros config doc w.
    pose proof (fetch_all_no_zero_division (locations_of doc)
                  (start config w)) as Hf.
    destruct (fetch_all (locations_of doc) (start config w))
      as [w' [e | rs]] eqn:E.
    + rewrite (pipeline_raises _ _ _ _ _ E). simpl.
      unfold no_zero_division in Hf. simpl in Hf. congruence.
    + destruct (has_nan_weight
                  (map summary_of (successes (locations_of doc) rs))) eqn:En.
      * rewrite (pipeline_nan _ _ _ _ _ E En). discriminate.
      * rewrite (pipeline_completes _ _ _ _ _ E En). discriminate.
Qed.

(** ** What the fetcher returns *)

(** C9 (amended): on a response in which ['daily' in data] is false
    the fetcher returns [None], and the loop goes on to the next location
    with its state as it was; on a frame, whatever its rows, the loop adds
    the summary and the frame of the location.  In a run that ends without
    an exception the locations written are exactly those whose fetch did
    not return [None]. *)
Theorem missing_daily_returns_None lat lng w data
  (Hresp : remote w (mkRequest lat lng (clock w (ticks w)))
           = Response (Some data))
  (Hno : py_in "daily" data = inr false) :
  snd (get_historical_temperature lat lng w) = inr None /\
  (forall coord rest st,
     loc_latitude coord = lat -> loc_longitude coord = lng ->
     fetch_loop (coord :: rest) st w = fetch_loop rest st (advance 1 w)) /\
  (forall coord rest st w0 df,
     snd (get_historical_temperature (loc_latitude coord)
            (loc_longitude coord) w0) = inr (Some df) ->
     fetch_loop (coord :: rest) st w0 =
     fetch_loop rest
       ((fst st ++
           [mkSummary (loc_latitude coord) (loc_longitude coord)
              (series_mean (map temperature_mean df))
              (loc_aim_id coord) (loc_address coord)])%list,
        PyDict.set String.eqb (loc_aim_id coord) df (snd st))
       (advance 1 w0)) /\
  (forall config doc w0,
     snd (process_temperature_pipeline config doc w0) = inr tt ->
     exists w' rs,
       fetch_all (locations_of doc) (start config w0) = (w', inr rs) /\
       let succ := successes (locations_of doc) rs in
       outputs w0 (fst (process_temperature_pipeline config doc w0)) =
         run_files (map summary_of succ) (map frame_of succ)
           (output_path_of config) w' /\
       forall k coord r,
         nth_error (locations_of doc) k = Some coord ->
         nth_error rs k = Some r ->
         (In (loc_aim_id coord) (map sum_aim_id (map summary_of succ)) <->
          r <> None) /\
         (In (loc_aim_id coord) (PyDict.keys (map frame_of succ)) <->
          r <> None)).
Proof.
  assert (Hf : fetch_result w lat lng = inr None)
    by now apply fetch_result_not_in with (data := data).
  split; [| split; [| split]].
  - rewrite get_historical_temperature_run. exact Hf.
  - intros coord rest st <- <-. now apply fetch_loop_skip.
  - intros coord rest st w0 df Hdf.
    rewrite get_historical_temperature_run in Hdf.
    now apply fetch_loop_keep.
  - intros config doc w0 Hdone.
    destruct (pipeline_done _ _ _ Hdone) as (w' & rs & Hrun & _ & Hout).
    exists w', rs. split; [exact Hrun |]. cbv zeta.
    split; [exact Hout |].
    intros k coord r Hk Hr. unfold PyDict.keys. rewrite !map_map.
    split;
      exact (successes_member _ _ _ _ _ (locations_of_NoDup doc) Hk Hr).
Qed.

Lemma zip_rows_dates d : forall a b c h p,
  List.length a = List.length d -> List.length b = List.length d ->
  List.length c = List.length d -> List.length h = List.length d ->
  List.length p = List.length d ->
  map date (zip_rows d a b c h p) = d.
Proof.
  induction d as [| d0 d IH];
    intros [| a0 a] [| b0 b] [| c0 c] [| h0 h] [| p0 p];
    simpl; try discriminate; try reflexivity.
  intros Ha Hb Hc Hh Hp. f_equal. apply IH; congruence.
Qed.

Lemma make_frame_dates d a b c h p df :
  make_frame d a b c h p = inr df -> map date df = d.
Proof.
  unfold make_frame.
  destruct (_ && _)%bool eqn:E; [| discriminate].
  intros [= <-].
  repeat (apply andb_prop in E; destruct E as [E ?]).
  apply zip_rows_dates; now apply Nat.eqb_eq.
Qed.

Lemma frame_of_daily_dates daily df :
  frame_of_daily daily = inr df ->
  exists time,
    py_getitem daily "time" = inr time /\
    to_datetime time = Some (map date df).
Proof.
  unfold frame_of_daily.
  destruct (py_getitem daily "time") as [e | time]; [discriminate |].
  simpl. destruct (to_datetime time) as [dates |] eqn:Et; [| discriminate].
  simpl.
  repeat (match goal with
          | |- rbind ?r _ = _ -> _ =>
              destruct r; [discriminate | cbn [rbind]]
          end).
  intros H. apply make_frame_dates in H. subst dates.
  exists time. auto.
Qed.

(** C8 (amended): the frame returned for a response with a 'daily'
    object carries the dates of the response's [time] array in the order
    of that array; the fetcher does not sort. *)
Theorem frame_in_response_order lat lng w df
  (Hdf : snd (get_historical_temperature lat lng w) = inr (Some df)) :
  exists data daily time,
    remote w (mkRequest lat lng (clock w (ticks w))) = Response (Some data) /\
    py_getitem data "daily" = inr daily /\
    py_getitem daily "time" = inr time /\
    to_datetime time = Some (map date df).
Proof.
  rewrite get_historical_temperature_run in Hdf. simpl in Hdf.
  unfold fetch_result in Hdf.
  destruct (remote w _) as [| [data |]] eqn:Er; try discriminate.
  simpl in Hdf. unfold parse_response in Hdf.
  destruct (py_in "daily" data) as [e | [|]]; try discriminate.
  simpl in Hdf.
  destruct (py_getitem data "daily") as [e | daily] eqn:Ed; [discriminate |].
  simpl in Hdf.
  destruct (frame_of_daily daily) as [e | df'] eqn:E; [discriminate |].
  simpl in Hdf. injection Hdf as ->.
  destruct (frame_of_daily_dates _ _ E) as (time & Ht & Hd).
  exists data, daily, time. auto.
Qed.

(** ** Names of the output files *)

Lemma run_files_names td dd out w :
  map fst (run_files td dd out w) =
  match td with
  | [] => []
  | _ :: _ =>
      (heatmap_name out (strftime (clock w (ticks w)))
       :: map (fun item =>
                 trend_name out (fst item)
                   (strftime (clock w (1 + ticks w)%nat))) dd
       ++ summary_name out (strftime (clock w (2 + ticks w)%nat))
       :: map (fun item =>
                 detail_name out (fst item)
                   (strftime (clock w (2 + ticks w)%nat))) dd
       ++ [statistics_name out (strftime (clock w (2 + ticks w)%nat))])%list
  end.
Proof.
  destruct td as [| d td]; [reflexivity |].
  unfold run_files, saved_files, trend_files, detail_csv_files.
  cbn [map fst heatmap_file]. rewrite map_app. cbn [map fst].
  rewrite map_app. rewrite !map_map. reflexivity.
Qed.

(** C6 (amended): each exporter reads the clock itself, so the files of a
    run that ends without an exception carry three readings, formatted
    YYYYmmdd_HHMMSS: the heat-map the first, the trend plots the second,
    the summary, the detail CSVs and the statistics the third.  The format
    determines the reading to the second, so that two names built alike
    coincide only for readings of the same second. *)
Theorem output_names_carry_exporter_reading a b
  (Ha : valid_datetime a) (Hb : valid_datetime b) :
  (strftime a = strftime b <-> a = b) /\
  (forall out pre suf,
     path_join out (pre ++ strftime a ++ suf) =
     path_join out (pre ++ strftime b ++ suf) -> a = b) /\
  (forall config doc w,
     snd (process_temperature_pipeline config doc w) = inr tt ->
     exists w' rs,
       fetch_all (locations_of doc) (start config w) = (w', inr rs) /\
       let out := output_path_of config in
       let n := List.length (locations_of doc) in
       let ids := map (fun cd => loc_aim_id (fst cd))
                    (successes (locations_of doc) rs) in
       let t1 := strftime (clock w (n + ticks w)%nat) in
       let t2 := strftime (clock w (1 + (n + ticks w))%nat) in
       let t3 := strftime (clock w (2 + (n + ticks w))%nat) in
       map fst
         (outputs w (fst (process_temperature_pipeline config doc w))) =
       match ids with
       | [] => []
       | _ :: _ =>
           (heatmap_name out t1
            :: map (fun id => trend_name out id t2) ids
            ++ summary_name out t3
            :: map (fun id => detail_name out id t3) ids
            ++ [statistics_name out t3])%list
       end).
Proof.
  split; [| split].
  - split; [now apply strftime_inj | now intros ->].
  - intros out pre suf. now apply stamped_name_inj.
  - intros config doc w Hdone.
    destruct (pipeline_done _ _ _ Hdone) as (w' & rs & Hrun & _ & Hout).
    exists w', rs. split; [exact Hrun |].
    intros out n ids t1 t2 t3.
    rewrite Hout.
    rewrite run_files_names.
    destruct (fetch_all_ok _ _ _ _ Hrun) as [-> _].
    unfold ids, t1, t2, t3, n, out.
    destruct (successes (locations_of doc) rs) as [| cd succ];
      [reflexivity |].
    cbn [map]. unfold advance. cbn [clock ticks].
    unfold start, create_directories. cbn [fst clock ticks].
    rewrite !map_map. reflexivity.
Qed.

(** ** The aggregator *)

Lemma season_items_keys rows :
  map fst (season_items rows) =
  flat_map (fun s => map (stat_key s) agg_columns) (group_index rows).
Proof.
  unfold season_items. rewrite map_fst_flat_map.
  apply flat_map_ext. intros s.
  unfold grouped_loc. rewrite !map_map. reflexivity.
Qed.

Lemma stats_keys_NoDup (p : Season -> bool) :
  NoDup (identity_keys ++
         flat_map (fun s => map (stat_key s) agg_columns)
           (filter p sorted_seasons)).
Proof.
  apply nodupb_sound. unfold sorted_seasons. cbn [filter].
  destruct (p Autumn), (p Spring), (p Summer), (p Winter);
    vm_compute; reflexivity.
Qed.

(** With distinct keys throughout, [stats_dict] is the identity fields
    followed by the seasonal items, in the order of their assignment. *)
Lemma stats_dict_items all_data aim_id rows :
  stats_dict all_data aim_id rows =
  ([ ("aim_id", FStr aim_id);
     ("address",
      option_field (fun d => FStr (sum_address d))
        (find_location all_data aim_id));
     ("latitude",
      option_field (fun d => FNum (Some (sum_lat d)))
        (find_location all_data aim_id));
     ("longitude",
      option_field (fun d => FNum (Some (sum_lng d)))
        (find_location all_data aim_id)) ]
   ++ season_items rows)%list.
Proof.
  unfold stats_dict. apply dict_set_all_distinct.
  rewrite season_items_keys. apply stats_keys_NoDup.
Qed.

Lemma season_group_annotate loc aim_id s df :
  map row_record (season_group s (annotate loc aim_id df)) =
  records_of_season s df.
Proof.
  unfold season_group, records_of_season, annotate.
  induction df as [| r df IH]; simpl; [reflexivity |].
  destruct (option_Season_eqb _ s); simpl; now rewrite IH.
Qed.

Lemma Season_eqb_refl s : Season_eqb s s = true.
Proof. now destruct s. Qed.

Lemma group_index_In loc aim_id df r s :
  In r df -> month_to_season (month (date r)) = Some s ->
  In s (group_index (annotate loc aim_id df)).
Proof.
  intros Hr Hs. unfold group_index. apply filter_In. split.
  - destruct s; simpl; auto.
  - assert (HIn : In r (records_of_season s df)).
    { unfold records_of_season. apply filter_In. split; [exact Hr |].
      rewrite Hs. simpl. apply Season_eqb_refl. }
    rewrite <- (season_group_annotate loc aim_id) in HIn.
    destruct (season_group s (annotate loc aim_id df)); [contradiction |].
    reflexivity.
Qed.

(** C1 (amended): the row of a location opens with its identity fields
    and holds, for every season that has a record and every column of the
    aggregation, the pandas statistic of that metric over the records of
    the season, passed through [.round(2)], under the key
    season_metric_statistic with the season in lower case.  The columns
    are mean, min and max of the three temperatures and of the humidity,
    and sum, mean and max of the precipitation. *)
Theorem seasonal_statistics_row all_data aim_id df r s c
  (Hr : In r df)
  (Hs : month_to_season (month (date r)) = Some s)
  (Hc : In c agg_columns) :
  let location := find_location all_data aim_id in
  let row := stats_dict all_data aim_id (annotate location aim_id df) in
  PyDict.get String.eqb (stat_key s c) row =
    Some (FNum (round2 (aggregate (snd c)
                          (map (metric_cell (fst c))
                               (records_of_season s df))))) /\
  PyDict.get String.eqb "aim_id" row = Some (FStr aim_id) /\
  PyDict.get String.eqb "address" row =
    Some (option_field (fun d => FStr (sum_address d)) location) /\
  PyDict.get String.eqb "latitude" row =
    Some (option_field (fun d => FNum (Some (sum_lat d))) location) /\
  PyDict.get String.eqb "longitude" row =
    Some (option_field (fun d => FNum (Some (sum_lng d))) location) /\
  PyDict.keys row =
    (identity_keys ++
     flat_map (fun s' => map (stat_key s') agg_columns)
       (group_index (annotate location aim_id df)))%list /\
  agg_columns =
    [ (Temperature_mean, Mean); (Temperature_mean, Min);
      (Temperature_mean, Max);
      (Temperature_max, Mean); (Temperature_max, Min);
      (Temperature_max, Max);
      (Temperature_min, Mean); (Temperature_min, Min);
      (Temperature_min, Max);
      (Humidity, Mean); (Humidity, Min); (Humidity, Max);
      (Precipitation, Sum); (Precipitation, Mean); (Precipitation, Max) ].
Proof.
  intros location row.
  assert (Hrow := stats_dict_items all_data aim_id
                    (annotate location aim_id df)).
  fold location in Hrow. fold row in Hrow.
  assert (Hkeys : PyDict.keys row =
    (identity_keys ++
     flat_map (fun s' => map (stat_key s') agg_columns)
       (group_index (annotate location aim_id df)))%list).
  { rewrite Hrow. unfold PyDict.keys. rewrite map_app.
    rewrite season_items_keys. reflexivity. }
  assert (Hnd : NoDup (PyDict.keys row)).
  { rewrite Hkeys. apply stats_keys_NoDup. }
  split; [| repeat split; try exact Hkeys;
            try (rewrite Hrow; reflexivity)].
  apply dict_get_In_NoDup; [exact Hnd |].
  rewrite Hrow. apply in_or_app. right.
  unfold season_items. apply in_flat_map.
  exists s. split; [now apply group_index_In with (r := r) |].
  apply in_map_iff.
  exists (c, grouped_cell (annotate location aim_id df) s c). split.
  - cbn [fst snd]. unfold grouped_cell.
    rewrite <- (season_group_annotate location aim_id s df).
    now rewrite map_map.
  - unfold grouped_loc. apply in_map_iff. exists c. auto.
Qed.

(* ================================================================== *)
(** * Further properties of the fetcher *)








(** X2: when the ['daily'] object of the response lacks one of the six
    arrays, the fetcher raises: [KeyError], unless [pd.to_datetime] has
    already rejected the [time] array with [ValueError].  It returns
    neither [None] nor a frame, so the location is not skipped. *)
Theorem incomplete_daily_raises lat lng w fields dfields k
  (Hresp : remote w (mkRequest lat lng (clock w (ticks w)))
           = Response (Some (JObj fields)))
  (Hdaily : PyDict.get String.eqb "daily" fields = Some (JObj dfields))
  (Hk : In k daily_keys)
  (Hmiss : PyDict.get String.eqb k dfields = None) :
  snd (get_historical_temperature lat lng w) = inl KeyError \/
  (exists time,
     PyDict.get String.eqb "time" dfields = Some time /\
     to_datetime time = None /\
     snd (get_historical_temperature lat lng w) = inl ValueError).
Proof.
  rewrite get_historical_temperature_run. cbn [snd].
  unfold fetch_result. rewrite Hresp. cbn [response_json rbind].
  unfold parse_response, py_in, PyDict.mem. rewrite Hdaily.
  cbn [rbind py_getitem]. rewrite Hdaily. cbn [rbind].
  unfold frame_of_daily. cbn [py_getitem].
  destruct (PyDict.get String.eqb "time" dfields) as [time |] eqn:E0;
    [| now left].
  cbn [rbind].
  destruct (to_datetime time) as [dates |] eqn:Et;
    [| right; exists time; auto].
  cbn [rbind].
  destruct (PyDict.get String.eqb "temperature_2m_max" dfields) eqn:E1;
    [| now left]. cbn [rbind].
  destruct (PyDict.get String.eqb "temperature_2m_min" dfields) eqn:E2;
    [| now left]. cbn [rbind].
  destruct (PyDict.get String.eqb "temperature_2m_mean" dfields) eqn:E3;
    [| now left]. cbn [rbind].
  destruct (PyDict.get String.eqb "relative_humidity_2m_mean" dfields)
    eqn:E4; [| now left]. cbn [rbind].
  destruct (PyDict.get String.eqb "precipitation_sum" dfields) eqn:E5;
    [| now left].
  exfalso. unfold daily_keys in Hk. simpl in Hk.
  repeat (destruct Hk as [<- | Hk]; [congruence |]). contradiction.
Qed.

(** X3: a response body that is not a JSON object never yields a frame.
    An array without the element ["daily"] and a string without the
    substring [daily] are skipped like an object without the key; an array
    or a string that has it, a number, a boolean and [null] raise
    [TypeError]. *)
Theorem non_object_body_never_frame data
  (Hnot : forall fields, data <> JObj fields) :
  (forall df, parse_response data <> inr (Some df)) /\
  (py_in "daily" data = inr false -> parse_response data = inr None) /\
  (py_in "daily" data <> inr false -> parse_response data = inl TypeError).
Proof.
  unfold parse_response.
  destruct data as [| b | q | s | items | fields]; cbn [py_in rbind].
  - repeat split; intros; try discriminate; reflexivity.
  - repeat split; intros; try discriminate; reflexivity.
  - repeat split; intros; try discriminate; reflexivity.
  - destruct (index 0 "daily" s); cbn [rbind py_getitem];
      repeat split; intros; try discriminate; try reflexivity; congruence.
  - destruct (existsb (is_str "daily") items); cbn [rbind py_getitem];
      repeat split; intros; try discriminate; try reflexivity; congruence.
  - exfalso. now apply (Hnot fields).
Qed.

(* ================================================================== *)
(** * Further properties of a run *)

Lemma fetch_all_first_failure coords : forall w k coord e,
  (forall j c, (j < k)%nat -> nth_error coords j = Some c ->
     exists r, fetch_result (advance j w) (loc_latitude c) (loc_longitude c)
               = inr r) ->
  nth_error coords k = Some coord ->
  fetch_result (advance k w) (loc_latitude coord) (loc_longitude coord)
    = inl e ->
  fetch_all coords w = (advance (S k) w, inl e).
Proof.
  induction coords as [| c coords IH]; intros w k coord e Hbefore Hk He.
  - destruct k; discriminate.
  - cbn [fetch_all]. unfold bind at 1.
    rewrite get_historical_temperature_run.
    destruct k as [| k]; cbn [nth_error] in Hk.
    + injection Hk as <-. rewrite advance_0 in He. rewrite He. reflexivity.
    + destruct (Hbefore 0%nat c) as (r & Hr); [lia | reflexivity |].
      rewrite advance_0 in Hr. rewrite Hr.
      unfold bind at 1.
      rewrite (IH (advance 1 w) k coord e).
      * rewrite advance_advance. repeat f_equal. lia.
      * intros j c' Hj Hc'. rewrite advance_advance.
        replace (j + 1)%nat with (S j) by lia.
        apply Hbefore; [lia | exact Hc'].
      * exact Hk.
      * rewrite advance_advance.
        replace (k + 1)%nat with (S k) by lia. exact He.
Qed.

(** X6: the run stops at the first fetch that raises.  When the fetches
    of the first [k] locations return and the fetch of the next one
    raises, the run ends with that exception after [k + 1] clock readings:
    the locations that follow are never requested, and no file is
    written. *)
Theorem run_stops_at_first_failure config doc w k coord e
  (Hbefore : forall j c,
     (j < k)%nat -> nth_error (locations_of doc) j = Some c ->
     exists r,
       fetch_result (advance j (start config w)) (loc_latitude c)
         (loc_longitude c) = inr r)
  (Hk : nth_error (locations_of doc) k = Some coord)
  (He : fetch_result (advance k (start config w)) (loc_latitude coord)
          (loc_longitude coord) = inl e) :
  let final := process_temperature_pipeline config doc w in
  snd final = inl e /\
  ticks (fst final) = (S k + ticks w)%nat /\
  files (fst final) = files w.
Proof.
  intros final. unfold final.
  rewrite (pipeline_raises _ _ _ _ _
             (fetch_all_first_failure _ _ _ _ _ Hbefore Hk He)).
  cbn [fst snd]. repeat split.
Qed.

(** ** The files of one run have different names *)

Lemma NoDup_map_fst_inj {V} (f : string -> string) (dd : list (string * V)) :
  (forall a b, f a = f b -> a = b) ->
  NoDup (map fst dd) -> NoDup (map (fun item => f (fst item)) dd).
Proof.
  intros Hinj. induction dd as [| item dd IH]; cbn [map]; intros Hnd;
    [constructor |].
  inversion Hnd as [| x l Hx Hl]; subst.
  constructor; [| now apply IH].
  intros HIn. apply Hx. apply in_map_iff in HIn.
  destruct HIn as (item' & Hname & Hitem').
  apply Hinj in Hname. rewrite <- Hname. now apply in_map.
Qed.

Lemma trend_name_inj out ts a b :
  trend_name out a ts = trend_name out b ts -> a = b.
Proof.
  unfold trend_name. intros H. apply path_join_inj in H.
  apply append_inv_head in H. now apply append_inv_tail in H.
Qed.

Lemma detail_name_inj out ts a b :
  detail_name out a ts = detail_name out b ts -> a = b.
Proof.
  unfold detail_name. intros H. apply path_join_inj in H.
  apply append_inv_head in H. now apply append_inv_tail in H.
Qed.

Ltac names_differ :=
  let H := fresh "H" in
  intros H;
  unfold heatmap_name, trend_name, summary_name, detail_name,
    statistics_name in H;
  apply path_join_inj in H; cbn [append] in H; discriminate H.

Lemma heatmap_not_trend out t i t' : heatmap_name out t <> trend_name out i t'.
Proof. names_differ. Qed.

Lemma heatmap_not_summary out t t' : heatmap_name out t <> summary_name out t'.
Proof. names_differ. Qed.

Lemma heatmap_not_detail out t i t' :
  heatmap_name out t <> detail_name out i t'.
Proof. names_differ. Qed.

Lemma heatmap_not_statistics out t t' :
  heatmap_name out t <> statistics_name out t'.
Proof. names_differ. Qed.

Lemma trend_not_summary out i t t' : trend_name out i t <> summary_name out t'.
Proof. names_differ. Qed.

Lemma trend_not_detail out i t j t' :
  trend_name out i t <> detail_name out j t'.
Proof. names_differ. Qed.

Lemma trend_not_statistics out i t t' :
  trend_name out i t <> statistics_name out t'.
Proof. names_differ. Qed.

Lemma summary_not_detail out t i t' :
  summary_name out t <> detail_name out i t'.
Proof. names_differ. Qed.

Lemma summary_not_statistics out t t' :
  summary_name out t <> statistics_name out t'.
Proof. names_differ. Qed.

Lemma detail_not_statistics out i t t' :
  detail_name out i t <> statistics_name out t'.
Proof. names_differ. Qed.

Lemma run_names_NoDup {V} out t1 t2 t3 (dd : list (string * V)) :
  NoDup (map fst dd) ->
  NoDup (heatmap_name out t1
         :: map (fun item => trend_name out (fst item) t2) dd
         ++ summary_name out t3
         :: map (fun item => detail_name out (fst item) t3) dd
         ++ [statistics_name out t3])%list.
Proof.
  intros Hnd.
  assert (HT : NoDup (map (fun item => trend_name out (fst item) t2) dd)).
  { apply (NoDup_map_fst_inj (fun i => trend_name out i t2)); [| exact Hnd].
    intros a b. apply trend_name_inj. }
  assert (HD : NoDup (map (fun item => detail_name out (fst item) t3) dd)).
  { apply (NoDup_map_fst_inj (fun i => detail_name out i t3)); [| exact Hnd].
    intros a b. apply detail_name_inj. }
  assert (Htail : NoDup (summary_name out t3
                         :: map (fun item => detail_name out (fst item) t3) dd
                         ++ [statistics_name out t3])%list).
  { constructor.
    - intros HIn. apply in_app_or in HIn. destruct HIn as [HIn | [HIn | []]].
      + apply in_map_iff in HIn. destruct HIn as (item & E & _).
        symmetry in E. now apply summary_not_detail in E.
      + symmetry in HIn. now apply summary_not_statistics in HIn.
    - apply NoDup_app; [exact HD | constructor; [tauto | constructor] |].
      intros a HIn [E | []]. apply in_map_iff in HIn.
      destruct HIn as (item & E' & _). subst a.
      symmetry in E. now apply detail_not_statistics in E. }
  constructor.
  - intros HIn. apply in_app_or in HIn. destruct HIn as [HIn | HIn].
    + apply in_map_iff in HIn. destruct HIn as (item & E & _).
      symmetry in E. now apply heatmap_not_trend in E.
    + destruct HIn as [E | HIn];
        [symmetry in E; now apply heatmap_not_summary in E |].
      apply in_app_or in HIn. destruct HIn as [HIn | [E | []]].
      * apply in_map_iff in HIn. destruct HIn as (item & E & _).
        symmetry in E. now apply heatmap_not_detail in E.
      * symmetry in E. now apply heatmap_not_statistics in E.
  - apply NoDup_app; [exact HT | exact Htail |].
    intros a HIn HIn'. apply in_map_iff in HIn.
    destruct HIn as (item & E & _). subst a.
    destruct HIn' as [E | HIn'];
      [symmetry in E; now apply trend_not_summary in E |].
    apply in_app_or in HIn'. destruct HIn' as [HIn' | [E | []]].
    + apply in_map_iff in HIn'. destruct HIn' as (item' & E & _).
      symmetry in E. now apply trend_not_detail in E.
    + symmetry in E. now apply trend_not_statistics in E.
Qed.

(** X7: a run that ends without an exception, [n >= 1] of its fetches
    having returned a frame, has written [2 n + 3] files (the heat-map,
    [n] trend plots, the summary, [n] detail CSVs, the statistics), none
    when [n = 0], and no two of them have the same name, whatever the
    clock shows: no exporter writes over the file of another. *)
Theorem run_writes_distinct_files config doc w
  (Hdone : snd (process_temperature_pipeline config doc w) = inr tt) :
  exists w' rs,
    fetch_all (locations_of doc) (start config w) = (w', inr rs) /\
    let names :=
      map fst
        (outputs w (fst (process_temperature_pipeline config doc w))) in
    let n := List.length (filter is_frame rs) in
    NoDup names /\
    List.length names = match n with O => O | S _ => (2 * n + 3)%nat end.
Proof.
  destruct (pipeline_done _ _ _ Hdone) as (w' & rs & Hrun & _ & Hout).
  exists w', rs. split; [exact Hrun |]. cbv zeta.
  rewrite Hout.
  rewrite run_files_names.
  destruct (fetch_all_ok _ _ _ _ Hrun) as [_ Hlen].
  rewrite <- (successes_length _ _ Hlen).
  pose proof (successes_NoDup _ rs (locations_of_NoDup doc)) as Hnd.
  destruct (successes (locations_of doc) rs) as [| cd succ].
  - split; [constructor | reflexivity].
  - assert (Hdd : List.length (map frame_of (cd :: succ))
                  = S (List.length succ))
      by (rewrite length_map; reflexivity).
    set (dd := map frame_of (cd :: succ)) in *.
    cbn [map summary_of]. split.
    + apply run_names_NoDup. exact Hnd.
    + cbn [List.length]. rewrite length_app. cbn [List.length].
      rewrite length_app. cbn [List.length]. rewrite !length_map. lia.
Qed.

(** ** What the exported files hold *)

Lemma find_location_fetched succ : forall coord df,
  NoDup (map fst (map frame_of succ)) ->
  In (coord, df) succ ->
  find_location (map summary_of succ) (loc_aim_id coord)
  = Some (summary_of (coord, df)).
Proof.
  unfold find_location.
  induction succ as [| cd succ IH]; intros coord df Hnd HIn;
    [contradiction |].
  cbn [map] in *. inversion Hnd as [| x l Hx Hl]; subst.
  cbn [find summary_of sum_aim_id].
  destruct HIn as [-> | HIn].
  - cbn [fst]. now rewrite String.eqb_refl.
  - destruct (String.eqb_spec (loc_aim_id (fst cd)) (loc_aim_id coord))
      as [E | _].
    + exfalso. apply Hx. cbn [frame_of fst]. rewrite E.
      rewrite map_map. apply in_map_iff. exists (coord, df). auto.
    + now apply IH.
Qed.

Lemma run_files_saved d td dd out w f :
  In f (saved_files (d :: td) dd out (clock w (2 + ticks w)%nat)) ->
  In f (run_files (d :: td) dd out w).
Proof.
  intros H. unfold run_files. right. apply in_or_app. now right.
Qed.

(** X8: in a run that ends without an exception, every location whose
    fetch returned a frame has a detail CSV named after its identifier;
    the file holds the records of that frame in their order, each with the
    identifier, the address and the coordinates of that location from the
    locations document, and with the month, the year and the season of its
    own date. *)
Theorem detail_csv_holds_fetched_frame config doc w
  (Hdone : snd (process_temperature_pipeline config doc w) = inr tt) :
  exists w' rs,
    fetch_all (locations_of doc) (start config w) = (w', inr rs) /\
    forall coord df,
      In (coord, df) (successes (locations_of doc) rs) ->
      exists rows,
        In (detail_name (output_path_of config) (loc_aim_id coord)
              (strftime (clock w' (2 + ticks w')%nat)),
            DetailCsv rows)
           (outputs w (fst (process_temperature_pipeline config doc w))) /\
        map row_record rows = df /\
        Forall (fun r =>
                  row_aim_id r = loc_aim_id coord /\
                  row_address r = loc_address coord /\
                  row_latitude r = Some (loc_latitude coord) /\
                  row_longitude r = Some (loc_longitude coord) /\
                  row_month r = month (date (row_record r)) /\
                  row_year r = year (date (row_record r)) /\
                  row_season r =
                    month_to_season (month (date (row_record r))))
               rows.
Proof.
  destruct (pipeline_done _ _ _ Hdone) as (w' & rs & Hrun & _ & Hout).
  exists w', rs. split; [exact Hrun |].
  intros coord df Hin. rewrite Hout.
  pose proof (successes_NoDup _ rs (locations_of_NoDup doc)) as Hnd.
  pose proof (find_location_fetched _ _ _ Hnd Hin) as Hfind.
  set (succ := successes (locations_of doc) rs) in *.
  set (td := map summary_of succ) in *.
  exists (annotate (find_location td (loc_aim_id coord)) (loc_aim_id coord)
            df).
  split; [| split].
  - assert (Htd : exists d td', td = d :: td').
    { unfold td. destruct succ as [| cd succ']; [contradiction |].
      cbn [map]. eauto. }
    destruct Htd as (d & td' & Etd). rewrite Etd.
    apply run_files_saved. rewrite <- Etd.
    unfold saved_files. right. apply in_or_app. left.
    unfold detail_csv_files. apply in_map_iff.
    exists (frame_of (coord, df)). split; [reflexivity |].
    now apply in_map.
  - unfold annotate. rewrite map_map. cbn [row_record]. apply map_id.
  - rewrite Hfind. unfold annotate. apply Forall_forall.
    intros r Hr. apply in_map_iff in Hr. destruct Hr as (r0 & <- & _).
    cbn. auto 8.
Qed.

(** X9: in a run that ends without an exception, at least one fetch
    having returned a frame, the summary JSON lists the fetched locations
    in the order of the locations document, each with its coordinates,
    identifier, address and the mean of its [temperature_mean] column; the
    statistics CSV has one row for each of them in the same order,
    carrying the identifier, the address and the coordinates of that
    location. *)
Theorem summary_and_statistics_list_fetched config doc w
  (Hdone : snd (process_temperature_pipeline config doc w) = inr tt) :
  exists w' rs,
    fetch_all (locations_of doc) (start config w) = (w', inr rs) /\
    let succ := successes (locations_of doc) rs in
    let out := output_path_of config in
    let t3 := strftime (clock w' (2 + ticks w')%nat) in
    let written :=
      outputs w (fst (process_temperature_pipeline config doc w)) in
    succ <> [] ->
    In (summary_name out t3,
        SummaryJson
          (map (fun cd =>
                  mkSummary (loc_latitude (fst cd)) (loc_longitude (fst cd))
                    (series_mean (map temperature_mean (snd cd)))
                    (loc_aim_id (fst cd)) (loc_address (fst cd)))
               succ))
       written /\
    exists stats,
      In (statistics_name out t3, StatisticsCsv stats) written /\
      map (PyDict.get String.eqb "aim_id") stats =
        map (fun cd => Some (FStr (loc_aim_id (fst cd)))) succ /\
      map (PyDict.get String.eqb "address") stats =
        map (fun cd => Some (FStr (loc_address (fst cd)))) succ /\
      map (PyDict.get String.eqb "latitude") stats =
        map (fun cd => Some (FNum (Some (loc_latitude (fst cd))))) succ /\
      map (PyDict.get String.eqb "longitude") stats =
        map (fun cd => Some (FNum (Some (loc_longitude (fst cd))))) succ.
Proof.
  destruct (pipeline_done _ _ _ Hdone) as (w' & rs & Hrun & _ & Hout).
  exists w', rs. split; [exact Hrun |].
  intros succ out t3 written Hsome. unfold written.
  rewrite Hout.
  pose proof (successes_NoDup _ rs (locations_of_NoDup doc)) as Hnd.
  fold succ in Hnd, Hsome |- *.
  assert (Hfind : forall cd, In cd succ ->
            find_location (map summary_of succ) (loc_aim_id (fst cd))
            = Some (summary_of cd)).
  { intros [c d] Hcd. now apply find_location_fetched. }
  set (td := map summary_of succ) in *.
  assert (Htd : exists d td', td = d :: td').
  { unfold td. destruct succ as [| cd succ']; [contradiction |].
    cbn [map]. eauto. }
  destruct Htd as (d & td' & Etd). rewrite Etd.
  split.
  - apply run_files_saved. rewrite <- Etd. unfold saved_files. left.
    reflexivity.
  - eexists. split.
    + apply run_files_saved. rewrite <- Etd. unfold saved_files. right.
      apply in_or_app. right. left. reflexivity.
    + rewrite !map_map.
      repeat split; apply map_ext_in; intros cd Hcd;
        cbn [frame_of fst snd]; rewrite stats_dict_items;
        rewrite (Hfind cd Hcd); reflexivity.
Qed.

(* ================================================================== *)
(** * Further properties of the aggregator *)

(** ** Which keys a row has *)

Lemma stats_dict_lookup all_data aim_id df r s c :
  In r df -> month_to_season (month (date r)) = Some s ->
  In c agg_columns ->
  PyDict.get String.eqb (stat_key s c)
    (stats_dict all_data aim_id
       (annotate (find_location all_data aim_id) aim_id df)) =
  Some (FNum (round2 (aggregate (snd c)
                        (map (metric_cell (fst c))
                             (records_of_season s df))))).
Proof.
  intros Hr Hs Hc.
  set (location := find_location all_data aim_id).
  set (rows := annotate location aim_id df).
  assert (Hrow := stats_dict_items all_data aim_id rows).
  apply dict_get_In_NoDup.
  - rewrite Hrow. unfold PyDict.keys. rewrite map_app.
    rewrite season_items_keys. apply stats_keys_NoDup.
  - rewrite Hrow. apply in_or_app. right.
    unfold season_items. apply in_flat_map.
    exists s. split; [now apply group_index_In with (r := r) |].
    apply in_map_iff. exists (c, grouped_cell rows s c). split.
    + cbn [fst snd]. unfold grouped_cell, rows.
      rewrite <- (season_group_annotate location aim_id s df).
      now rewrite map_map.
    + unfold grouped_loc. apply in_map_iff. exists c. auto.
Qed.

Lemma NoDup_map_inj_on {A B} (f : A -> B) (l : list A) a b :
  NoDup (map f l) -> In a l -> In b l -> f a = f b -> a = b.
Proof.
  induction l as [| x l IH]; cbn [map]; intros Hnd Ha Hb E;
    [contradiction |].
  inversion Hnd as [| y l' Hx Hl]; subst.
  destruct Ha as [-> | Ha], Hb as [-> | Hb].
  - reflexivity.
  - exfalso. apply Hx. rewrite E. now apply in_map.
  - exfalso. apply Hx. rewrite <- E. now apply in_map.
  - now apply IH.
Qed.

Lemma all_stat_keys_NoDup :
  NoDup (identity_keys ++
         map (fun p => stat_key (fst p) (snd p))
             (list_prod sorted_seasons agg_columns)).
Proof. apply nodupb_sound. vm_compute. reflexivity. Qed.

Lemma stat_key_season s c s' c' :
  In c agg_columns -> In c' agg_columns ->
  stat_key s c = stat_key s' c' -> s = s'.
Proof.
  intros Hc Hc' E.
  assert (Hs : forall x, In x sorted_seasons) by (intros []; cbn; auto).
  assert (P : (s, c) = (s', c')).
  { apply (NoDup_map_inj_on (fun p => stat_key (fst p) (snd p))
             (list_prod sorted_seasons agg_columns)).
    - exact (NoDup_app_remove_l _ _ all_stat_keys_NoDup).
    - apply in_prod; auto.
    - apply in_prod; auto.
    - exact E. }
  now injection P.
Qed.

Lemma NoDup_app_disjoint {A} (l l' : list A) x :
  NoDup (l ++ l') -> In x l -> In x l' -> False.
Proof.
  induction l as [| y l IH]; cbn [app]; intros Hnd Hl Hl';
    [contradiction |].
  inversion Hnd as [| z t Hy Ht]; subst.
  destruct Hl as [-> | Hl].
  - apply Hy. apply in_or_app. now right.
  - now apply IH.
Qed.

Lemma stat_key_not_identity s c :
  In c agg_columns -> ~ In (stat_key s c) identity_keys.
Proof.
  intros Hc HIn.
  assert (Hs : In s sorted_seasons) by (destruct s; cbn; auto).
  apply (NoDup_app_disjoint _ _ _ all_stat_keys_NoDup HIn).
  apply in_map_iff. exists (s, c). split; [reflexivity |].
  now apply in_prod.
Qed.

Lemma group_index_record loc aim_id df s :
  In s (group_index (annotate loc aim_id df)) ->
  exists r, In r df /\ month_to_season (month (date r)) = Some s.
Proof.
  unfold group_index. intros H. apply filter_In in H. destruct H as [_ H].
  destruct (season_group s (annotate loc aim_id df)) as [| r' g] eqn:E;
    [discriminate |].
  assert (HIn : In r' (season_group s (annotate loc aim_id df)))
    by (rewrite E; now left).
  unfold season_group in HIn. apply filter_In in HIn.
  destruct HIn as [Hrow Hseason].
  unfold annotate in Hrow. apply in_map_iff in Hrow.
  destruct Hrow as (r & <- & Hr). cbn [row_season] in Hseason.
  exists r. split; [exact Hr |].
  destruct (month_to_season (month (date r))) as [s0 |];
    [| discriminate].
  cbn in Hseason. destruct s0, s; try discriminate; reflexivity.
Qed.

(** X11: a row has the statistics of a season exactly when the frame has
    a record in that season: a season without records contributes no key,
    not a column of NaN. *)
Theorem statistics_only_for_seasons_with_records all_data aim_id df s c
  (Hc : In c agg_columns) :
  let row :=
    stats_dict all_data aim_id
      (annotate (find_location all_data aim_id) aim_id df) in
  PyDict.get String.eqb (stat_key s c) row <> None <->
  exists r, In r df /\ month_to_season (month (date r)) = Some s.
Proof.
  intros row. split.
  - intros Hget.
    assert (HIn : In (stat_key s c) (PyDict.keys row)).
    { destruct (in_dec string_dec (stat_key s c) (PyDict.keys row))
        as [H | H]; [exact H |].
      apply dict_get_None_keys in H. contradiction. }
    unfold row in HIn. rewrite stats_dict_items in HIn.
    unfold PyDict.keys in HIn. rewrite map_app in HIn.
    apply in_app_or in HIn. destruct HIn as [HIn | HIn].
    + exfalso. now apply (stat_key_not_identity s c Hc).
    + rewrite season_items_keys in HIn. apply in_flat_map in HIn.
      destruct HIn as (s' & Hs' & Hk). apply in_map_iff in Hk.
      destruct Hk as (c' & E & Hc').
      apply stat_key_season in E; [| exact Hc' | exact Hc]. subst s'.
      now apply group_index_record in Hs'.
  - intros (r & Hr & Hs). unfold row.
    rewrite (stats_dict_lookup _ _ _ _ _ _ Hr Hs Hc). discriminate.
Qed.

(* ================================================================== *)
(** * [save_temperature_data] on its own *)

Lemma find_location_absent all_data aim_id :
  (forall d, In d all_data -> sum_aim_id d <> aim_id) ->
  find_location all_data aim_id = None.
Proof.
  unfold find_location. induction all_data as [| d l IH]; intros H;
    [reflexivity |].
  cbn [find]. destruct (String.eqb_spec (sum_aim_id d) aim_id) as [E | _].
  - exfalso. apply (H d); [now left | exact E].
  - apply IH. intros d' Hd'. apply H. now right.
Qed.

(** X14: [save_temperature_data] accepts a frame whose identifier has no
    summary in [all_data].  The detail CSV is still written with the
    records of the frame, with an empty address and no coordinates; the
    row of the statistics CSV has the identifier, and [None] for the
    address and the coordinates. *)
Theorem save_without_summary all_data dd out w aim_id df
  (Hitem : In (aim_id, df) dd)
  (Hmiss : forall d, In d all_data -> sum_aim_id d <> aim_id) :
  let written := outputs w (fst (save_temperature_data all_data dd out w)) in
  let t := strftime (clock w (ticks w)) in
  snd (save_temperature_data all_data dd out w) = inr tt /\
  (exists rows,
     In (detail_name out aim_id t, DetailCsv rows) written /\
     map row_record rows = df /\
     Forall (fun r => row_aim_id r = aim_id /\ row_address r = "" /\
                      row_latitude r = None /\ row_longitude r = None)
            rows) /\
  (exists stats row,
     In (statistics_name out t, StatisticsCsv stats) written /\
     In row stats /\
     PyDict.get String.eqb "aim_id" row = Some (FStr aim_id) /\
     PyDict.get String.eqb "address" row = Some FNone /\
     PyDict.get String.eqb "latitude" row = Some FNone /\
     PyDict.get String.eqb "longitude" row = Some FNone).
Proof.
  intros written t. unfold written.
  rewrite save_temperature_data_run. cbn [fst snd].
  assert (Hout : outputs w
            (with_files (advance 1 w)
               (saved_files all_data dd out (clock w (ticks w))))
          = saved_files all_data dd out (clock w (ticks w))).
  { unfold outputs, with_files, advance. cbn [files].
    rewrite skipn_app, skipn_all, Nat.sub_diag. reflexivity. }
  rewrite Hout. clear Hout.
  pose proof (find_location_absent _ _ Hmiss) as Hfind.
  split; [reflexivity |]. split.
  - exists (annotate (find_location all_data aim_id) aim_id df).
    split; [| split].
    + unfold saved_files. right. apply in_or_app. left.
      unfold detail_csv_files. apply in_map_iff.
      exists (aim_id, df). split; [reflexivity | exact Hitem].
    + unfold annotate. rewrite map_map. cbn [row_record]. apply map_id.
    + rewrite Hfind. unfold annotate. apply Forall_forall.
      intros r Hr. apply in_map_iff in Hr. destruct Hr as (r0 & <- & _).
      cbn. auto.
  - eexists. eexists. split; [| split].
    + unfold saved_files. right. apply in_or_app. right. left. reflexivity.
    + apply in_map_iff. exists (aim_id, df). split; [reflexivity | exact Hitem].
    + cbn [fst snd]. rewrite stats_dict_items, Hfind. repeat split.
Qed.

(* ================================================================== *)
(** * The requests of a run *)

Lemma fetch_result_same_request w1 w2 lat lng :
  clock w1 = clock w2 -> ticks w1 = ticks w2 ->
  remote w1 (mkRequest lat lng (clock w1 (ticks w1)))
  = remote w2 (mkRequest lat lng (clock w2 (ticks w2))) ->
  fetch_result w1 lat lng = fetch_result w2 lat lng.
Proof.
  intros Hc Ht Hr. unfold fetch_result. now rewrite Hr.
Qed.

Lemma fetch_all_same_requests coords : forall w r',
  (forall k coord, nth_error coords k = Some coord ->
     reaches w coords k ->
     r' (request_at w k coord) = remote w (request_at w k coord)) ->
  snd (fetch_all coords (with_remote w r')) = snd (fetch_all coords w) /\
  ticks (fst (fetch_all coords (with_remote w r')))
  = ticks (fst (fetch_all coords w)).
Proof.
  induction coords as [| c coords IH]; intros w r' H.
  - split; reflexivity.
  - cbn [fetch_all]. unfold bind at 1 3 5 7.
    rewrite !get_historical_temperature_run.
    assert (E : fetch_result (with_remote w r') (loc_latitude c)
                  (loc_longitude c)
                = fetch_result w (loc_latitude c) (loc_longitude c)).
    { apply fetch_result_same_request; try reflexivity.
      cbn [with_remote remote clock ticks].
      apply (H 0%nat c eq_refl). intros j c' Hj. lia. }
    rewrite E.
    destruct (fetch_result w (loc_latitude c) (loc_longitude c))
      as [e | r] eqn:Er; [split; reflexivity |].
    change (advance 1 (with_remote w r'))
      with (with_remote (advance 1 w) r').
    destruct (IH (advance 1 w) r') as [IHs IHt].
    { intros k coord Hk Hreach.
      assert (Hreq : request_at (advance 1 w) k coord
                     = request_at w (S k) coord).
      { unfold request_at, advance. cbn [clock ticks].
        do 2 f_equal. lia. }
      rewrite Hreq. apply (H (S k) coord); [exact Hk |].
      intros j c' Hj Hc'. destruct j as [| j]; cbn [nth_error] in Hc'.
      - injection Hc' as <-. rewrite advance_0. eauto.
      - destruct (Hreach j c') as (r0 & Hr0); [lia | exact Hc' |].
        exists r0. rewrite advance_advance in Hr0.
        replace (S j) with (j + 1)%nat by lia. exact Hr0. }
    unfold bind at 1 2 3 4.
    destruct (fetch_all coords (with_remote (advance 1 w) r'))
      as [wa [ea | rsa]];
      destruct (fetch_all coords (advance 1 w)) as [wb [eb | rsb]];
      cbn [fst snd] in *; try discriminate;
      injection IHs as <-; split; auto.
Qed.

(** X15: a run asks the remote API one question for each location it
    reaches, that is, each location before which no fetch has raised: the
    coordinates of the location at the clock reading of its turn.  Two
    remote APIs that answer these questions alike give the same result
    and the same files, whatever they answer elsewhere. *)
Theorem run_depends_on_its_requests_only config doc w r'
  (Hsame : forall k coord,
     nth_error (locations_of doc) k = Some coord ->
     reaches (start config w) (locations_of doc) k ->
     r' (request_at w k coord) = remote w (request_at w k coord)) :
  snd (process_temperature_pipeline config doc (with_remote w r'))
  = snd (process_temperature_pipeline config doc w) /\
  files (fst (process_temperature_pipeline config doc (with_remote w r')))
  = files (fst (process_temperature_pipeline config doc w)).
Proof.
  assert (Hstart : start config (with_remote w r')
                   = with_remote (start config w) r') by reflexivity.
  destruct (fetch_all_same_requests (locations_of doc) (start config w) r')
    as [Hs Ht].
  { intros k coord Hk Hreach. exact (Hsame k coord Hk Hreach). }
  rewrite <- Hstart in Hs, Ht.
  destruct (fetch_all (locations_of doc) (start config (with_remote w r')))
    as [wa [ea | rsa]] eqn:Ea;
    destruct (fetch_all (locations_of doc) (start config w))
      as [wb [eb | rsb]] eqn:Eb;
    cbn [fst snd] in Hs, Ht; try discriminate.
  - injection Hs as ->.
    rewrite (pipeline_raises _ _ _ _ _ Ea), (pipeline_raises _ _ _ _ _ Eb).
    cbn [fst snd]. split; [reflexivity |].
    destruct (fetch_all_files _ _ _ _ Ea) as (Fa & _).
    destruct (fetch_all_files _ _ _ _ Eb) as (Fb & _).
    rewrite Fa, Fb. reflexivity.
  - injection Hs as ->.
    destruct (fetch_all_files _ _ _ _ Ea) as (Fa & _ & Ca & _).
    destruct (fetch_all_files _ _ _ _ Eb) as (Fb & _ & Cb & _).
    destruct (has_nan_weight
                (map summary_of (successes (locations_of doc) rsb))) eqn:En.
    + rewrite (pipeline_nan _ _ _ _ _ Ea En), (pipeline_nan _ _ _ _ _ Eb En).
      cbn [fst snd]. split; [reflexivity |]. rewrite Fa, Fb. reflexivity.
    + rewrite (pipeline_completes _ _ _ _ _ Ea En),
        (pipeline_completes _ _ _ _ _ Eb En).
      cbn [fst snd]. split; [reflexivity |].
      destruct (map summary_of (successes (locations_of doc) rsb))
        as [| d td].
      * rewrite Fa, Fb. reflexivity.
      * unfold with_files, run_files. cbn [files advance clock ticks].
        rewrite Fa, Fb, Ca, Cb, Ht. reflexivity.
Qed.

End Pipeline.

(* ================================================================== *)
(** * Examples

    The properties above at the example data, with [pd.to_datetime]
    instantiated by the ISO date reader and the floating point operations
    by their exact stand-ins.  The numbers of the example data are
    integers, halves and quarters, on which sums, means, minima and maxima
    are exact in floating point as well. *)

Local Abbreviation example_pipeline :=
  (process_temperature_pipeline iso_to_datetime exact_mean exact_aggregate
     exact_round2 exact_sum exact_truediv).

Local Abbreviation example_fetch := (get_historical_temperature iso_to_datetime).

Local Abbreviation example_row := (stats_dict exact_aggregate exact_round2).

Lemma example_run_fetches :
  fetch_all iso_to_datetime (locations_of example_doc)
    (start example_config example_world) =
  (advance 2 (start example_config example_world),
   inr [Some example_frame; None]).
Proof. vm_compute. reflexivity. Qed.

(** ** C1 *)

(** C1, the claim as stated fails: a location with winter records gets no
    minimum of the precipitation; the row has the sum in its place. *)
Lemma precipitation_min_absent :
  let row := example_row [] "aim_1" (annotate None "aim_1" example_frame) in
  records_of_season Winter example_frame = example_frame /\
  PyDict.get String.eqb "winter_precipitation_min" row = None /\
  PyDict.get String.eqb "winter_precipitation_sum" row
    = Some (FNum (Some (25 # 100)%Q)) /\
  PyDict.get String.eqb "winter_precipitation_mean" row <> None /\
  PyDict.get String.eqb "winter_precipitation_max" row
    = Some (FNum (Some (25 # 100)%Q)) /\
  List.length (PyDict.keys row) = 19%nat.
Proof. vm_compute. repeat split; try reflexivity. discriminate. Qed.

Lemma seasonal_statistics_row_witness :
  PyDict.get String.eqb "winter_precipitation_sum"
    (example_row [] "aim_1" (annotate None "aim_1" example_frame))
  = Some (FNum (exact_round2
                  (exact_aggregate Sum
                     (map precipitation
                        (records_of_season Winter example_frame))))).
Proof.
  refine (proj1 (seasonal_statistics_row exact_aggregate exact_round2
                   [] "aim_1" example_frame
                   (mkRecord (mkDate 2024 1 1) (Some (5 # 1)%Q)
                      (Some (1 # 1)%Q) (Some (3 # 1)%Q) (Some (80 # 1)%Q)
                      (Some (1 # 4)%Q))
                   Winter (Precipitation, Sum) _ _ _)).
  - left. reflexivity.
  - reflexivity.
  - simpl. intuition.
Defined.

(** ** C3 *)

(** C3, the claim as stated fails: a network error in the request of the
    second location ends the run with the exception, and nothing is
    written, the frame of the first location included. *)
Lemma network_error_aborts_run :
  let final := example_pipeline example_config failing_doc example_world in
  remote example_world
    (mkRequest (3 # 1) (30 # 1) (clock example_world 1)) = NetworkError /\
  snd final = inl ConnectionError /\
  files (fst final) = [].
Proof. vm_compute. repeat split; reflexivity. Qed.

Lemma missing_daily_location_is_skipped_witness :
  fetch_loop iso_to_datetime exact_mean [skipped_location] ([], [])
    example_world = (advance 1 example_world, inr ([], [])) /\
  map fst
    (outputs example_world
       (fst (example_pipeline example_config example_doc example_world))) =
    [ "out/temperature_heatmap_20240101_120002.html";
      "out/temperature_trends_aim_1_20240101_120003.png";
      "out/temperature_summary_20240101_120004.json";
      "out/temperature_data_aim_1_20240101_120004.csv";
      "out/temperature_statistics_20240101_120004.csv" ].
Proof.
  destruct (missing_daily_location_is_skipped iso_to_datetime exact_mean
              exact_aggregate exact_round2 exact_sum exact_truediv
              example_config example_doc example_world 1
              skipped_location (JObj no_daily_fields))
    as (Hloop & w' & rs & Hrun & _ & Hout & _).
  - reflexivity.
  - reflexivity.
  - reflexivity.
  - vm_compute. reflexivity.
  - split.
    + exact (Hloop [] ([], []) example_world eq_refl).
    + rewrite example_run_fetches in Hrun. injection Hrun as <- <-.
      rewrite Hout. vm_compute. reflexivity.
Defined.

(** ** C4 *)

(** C4, the claim as stated fails: the fetch of the first location
    returns a data frame, the request of the second raises, and the run
    writes no detail CSV. *)
Lemma fetched_location_without_csv :
  let final := example_pipeline example_config failing_doc example_world in
  fetch_result iso_to_datetime (start example_config example_world)
    (1 # 1) (10 # 1) = inr (Some example_frame) /\
  filter is_detail_csv (outputs example_world (fst final)) = [].
Proof. vm_compute. split; reflexivity. Qed.

Lemma detail_csv_count_witness :
  List.length
    (filter is_detail_csv
       (outputs example_world
          (fst (example_pipeline example_config example_doc example_world))))
  = 1%nat.
Proof.
  destruct (detail_csv_count iso_to_datetime exact_mean exact_aggregate
              exact_round2 exact_sum exact_truediv
              example_config example_doc example_world)
    as (w' & rs & Hrun & Hlen & _).
  - vm_compute. reflexivity.
  - rewrite example_run_fetches in Hrun. injection Hrun as _ <-.
    exact Hlen.
Defined.

(** ** C5 *)

Lemma no_success_no_output_witness :
  files (fst (example_pipeline example_config skipped_doc example_world))
  = [].
Proof.
  refine (proj1 (no_success_no_output iso_to_datetime exact_mean
                   exact_aggregate exact_round2 exact_sum exact_truediv
                   example_config skipped_doc example_world _)).
  intros w' rs H. vm_compute in H. injection H as _ <-.
  intros r [<- | []]. reflexivity.
Defined.

(** ** C6 *)

(** C6, the claim as stated fails twice.  With a clock that moves during
    the run the output names carry three different timestamps; and two
    runs made within the same second write the same names, the second run
    over the files of the first. *)
Lemma run_timestamp_not_single :
  let run w := fst (example_pipeline example_config example_doc w) in
  map fst (outputs example_world (run example_world)) =
    [ "out/temperature_heatmap_20240101_120002.html";
      "out/temperature_trends_aim_1_20240101_120003.png";
      "out/temperature_summary_20240101_120004.json";
      "out/temperature_data_aim_1_20240101_120004.csv";
      "out/temperature_statistics_20240101_120004.csv" ] /\
  map fst (outputs frozen_world (run frozen_world)) =
    [ "out/temperature_heatmap_20240101_120000.html";
      "out/temperature_trends_aim_1_20240101_120000.png";
      "out/temperature_summary_20240101_120000.json";
      "out/temperature_data_aim_1_20240101_120000.csv";
      "out/temperature_statistics_20240101_120000.csv" ] /\
  map fst (outputs (run frozen_world) (run (run frozen_world))) =
  map fst (outputs frozen_world (run frozen_world)).
Proof. vm_compute. repeat split; reflexivity. Qed.

Lemma output_names_carry_exporter_reading_witness :
  (strftime (example_clock 2) = strftime (example_clock 3) <->
   example_clock 2 = example_clock 3) /\
  map fst
    (outputs example_world
       (fst (example_pipeline example_config example_doc example_world))) =
    [ heatmap_name "out" (strftime (example_clock 2));
      trend_name "out" "aim_1" (strftime (example_clock 3));
      summary_name "out" (strftime (example_clock 4));
      detail_name "out" "aim_1" (strftime (example_clock 4));
      statistics_name "out" (strftime (example_clock 4)) ].
Proof.
  destruct (output_names_carry_exporter_reading iso_to_datetime exact_mean
              exact_aggregate exact_round2 exact_sum exact_truediv
              (example_clock 2) (example_clock 3))
    as (Hstamp & _ & Hnames).
  - unfold valid_datetime; simpl; lia.
  - unfold valid_datetime; simpl; lia.
  - split; [exact Hstamp |].
    destruct (Hnames example_config example_doc example_world)
      as (w' & rs & Hrun & Hrun_names).
    + vm_compute. reflexivity.
    + rewrite example_run_fetches in Hrun. injection Hrun as _ <-.
      exact Hrun_names.
Defined.

(** ** C7 *)

(** C7, the claim as stated fails: the fetch of the location returns a
    frame, but every mean temperature of the response is null; the weight
    of the location is NaN, the heat layer is refused, and the run ends in
    [ValueError] without a heat-map or any other file. *)
Lemma nan_weight_no_heatmap :
  let final := example_pipeline example_config null_mean_doc example_world in
  snd (fetch_all iso_to_datetime (locations_of null_mean_doc)
         (start example_config example_world))
    = inr [Some null_mean_frame] /\
  exact_mean (map temperature_mean null_mean_frame) = None /\
  snd final = inl ValueError /\
  outputs example_world (fst final) = [].
Proof. vm_compute. repeat split; reflexivity. Qed.

Lemma heatmap_centre_and_weights_witness :
  (exists path m,
     filter is_heatmap
       (outputs example_world
          (fst (example_pipeline example_config example_doc example_world)))
       = [(path, HeatmapHtml m)] /\
     map_location m = ((1 # 1)%Q, (10 # 1)%Q) /\
     heatmap_data m = [((1 # 1)%Q, (10 # 1)%Q, Some (13 # 4)%Q)]) /\
  snd (example_pipeline example_config null_mean_doc example_world)
    = inl ValueError.
Proof.
  split.
  - destruct (heatmap_centre_and_weights iso_to_datetime exact_mean
                exact_aggregate exact_round2 exact_sum exact_truediv
                example_config example_doc example_world)
      as (Hshape & Hone & _).
    destruct (Hone _ _ example_run_fetches) as (path & m & Hfile).
    + discriminate.
    + intros cd [<- | []]. vm_compute. discriminate.
    + exists path, m. split; [exact Hfile |].
      destruct (Hshape path m) as (w' & rs & Hrun & _ & Hcentre & Hdata & _).
      * apply (proj1 (filter_In is_heatmap _ _)). rewrite Hfile. now left.
      * rewrite example_run_fetches in Hrun. injection Hrun as _ <-.
        split.
        -- rewrite Hcentre. vm_compute. reflexivity.
        -- rewrite Hdata. vm_compute. reflexivity.
  - destruct (heatmap_centre_and_weights iso_to_datetime exact_mean
                exact_aggregate exact_round2 exact_sum exact_truediv
                example_config null_mean_doc example_world)
      as (_ & _ & Hnan).
    refine (proj1 (Hnan (advance 1 (start example_config example_world))
                     [Some null_mean_frame]
                     (mkLocation "aim_6" "Heaton" (6 # 1) (60 # 1) "t6",
                      null_mean_frame) _ _ _)).
    + vm_compute. reflexivity.
    + left. reflexivity.
    + vm_compute. reflexivity.
Defined.

(** ** C8 *)

(** C8, the claim as stated fails: a response whose time array runs
    backwards yields a frame whose dates run backwards. *)
Lemma descending_response_descending_frame :
  exists df,
    PyDict.mem String.eqb "daily"
      (match descending_body with JObj f => f | _ => [] end) = true /\
    snd (example_fetch (4 # 1) (0 # 1) example_world) = inr (Some df) /\
    map date df = [mkDate 2024 1 2; mkDate 2024 1 1] /\
    ascendingb (map date df) = false.
Proof. eexists. vm_compute. repeat split; reflexivity. Qed.

Lemma frame_in_response_order_witness :
  exists data daily time,
    remote example_world
      (mkRequest (1 # 1) (10 # 1) (clock example_world (ticks example_world)))
      = Response (Some data) /\
    py_getitem data "daily" = inr daily /\
    py_getitem daily "time" = inr time /\
    iso_to_datetime time = Some (map date example_frame).
Proof.
  refine (frame_in_response_order iso_to_datetime (1 # 1) (10 # 1)
            example_world example_frame _).
  vm_compute. reflexivity.
Defined.

(** ** C9 *)

(** C9, the claim as stated fails: a body that is the JSON value null has
    no ['daily'] key, and on it the fetcher does not return [None]:
    ['daily' in data] raises [TypeError], which ends the run. *)
Lemma null_body_raises :
  let final := example_pipeline example_config null_body_doc example_world in
  remote example_world
    (mkRequest (5 # 1) (50 # 1) (clock example_world 0))
    = Response (Some JNull) /\
  snd (example_fetch (5 # 1) (50 # 1) example_world) = inl TypeError /\
  snd final = inl TypeError /\
  files (fst final) = [].
Proof. vm_compute. repeat split; reflexivity. Qed.

Lemma missing_daily_returns_None_witness :
  snd (example_fetch (2 # 1) (20 # 1) example_world) = inr None /\
  fetch_loop iso_to_datetime exact_mean [skipped_location] ([], [])
    example_world = (advance 1 example_world, inr ([], [])) /\
  fetch_loop iso_to_datetime exact_mean [example_location] ([], [])
    example_world =
    (advance 1 example_world,
     inr ([mkSummary (1 # 1) (10 # 1) (Some (13 # 4)%Q) "aim_1"
             "Grey Street"],
          [("aim_1", example_frame)])) /\
  (In "aim_1"
      (map sum_aim_id
         (map (summary_of exact_mean)
            (successes (locations_of example_doc)
               [Some example_frame; None]))) <->
   Some example_frame <> None).
Proof.
  destruct (missing_daily_returns_None iso_to_datetime exact_mean
              exact_aggregate exact_round2 exact_sum exact_truediv
              (2 # 1) (20 # 1) example_world (JObj no_daily_fields))
    as (Hnone & Hskip & Hkeep & Hrun).
  - reflexivity.
  - reflexivity.
  - split; [exact Hnone |]. split; [| split].
    + exact (Hskip skipped_location [] ([], []) eq_refl eq_refl).
    + rewrite (Hkeep example_location [] ([], []) example_world
                 example_frame).
      * vm_compute. reflexivity.
      * vm_compute. reflexivity.
    + destruct (Hrun example_config example_doc example_world)
        as (w' & rs & Hfetch & _ & Hiff).
      * vm_compute. reflexivity.
      * rewrite example_run_fetches in Hfetch. injection Hfetch as _ <-.
        exact (proj1 (Hiff 0%nat example_location (Some example_frame)
                        eq_refl eq_refl)).
Defined.

(* ================================================================== *)
(** * Examples of the further properties *)


Lemma incomplete_daily_raises_witness :
  snd (example_fetch (1 # 1) (10 # 1) incomplete_world) = inl KeyError.
Proof.
  destruct (incomplete_daily_raises iso_to_datetime (1 # 1)%Q (10 # 1)%Q
              incomplete_world
              [("daily", JObj incomplete_daily)] incomplete_daily
              "precipitation_sum" eq_refl eq_refl
              ltac:(cbn; tauto) eq_refl)
    as [H | (time & _ & _ & H)]; [exact H |].
  vm_compute in H. discriminate H.
Defined.

Lemma non_object_body_never_frame_witness :
  parse_response iso_to_datetime (JArr [JStr "daily"]) = inl TypeError /\
  parse_response iso_to_datetime (JArr [JStr "hourly"]) = inr None.
Proof.
  split.
  - apply (non_object_body_never_frame iso_to_datetime
             (JArr [JStr "daily"])); [discriminate |].
    vm_compute. discriminate.
  - apply (non_object_body_never_frame iso_to_datetime
             (JArr [JStr "hourly"])); [discriminate |].
    reflexivity.
Defined.

Lemma run_stops_at_first_failure_witness :
  let final := example_pipeline example_config failing_doc example_world in
  snd final = inl ConnectionError /\ ticks (fst final) = 2%nat.
Proof.
  destruct (run_stops_at_first_failure iso_to_datetime exact_mean
              exact_aggregate exact_round2 exact_sum exact_truediv
              example_config failing_doc example_world 1 failing_location
              ConnectionError)
    as (H1 & H2 & _).
  - intros j c Hj Hc. destruct j as [| j]; [| lia].
    vm_compute in Hc. injection Hc as <-.
    exists (Some example_frame). vm_compute. reflexivity.
  - reflexivity.
  - vm_compute. reflexivity.
  - split; [exact H1 | exact H2].
Defined.

Lemma run_writes_distinct_files_witness :
  List.length
    (map fst
       (outputs example_world
          (fst (example_pipeline example_config example_doc example_world))))
  = 5%nat.
Proof.
  destruct (run_writes_distinct_files iso_to_datetime exact_mean
              exact_aggregate exact_round2 exact_sum exact_truediv
              example_config example_doc example_world)
    as (w' & rs & Hrun & _ & Hlen).
  - vm_compute. reflexivity.
  - rewrite example_run_fetches in Hrun. injection Hrun as _ <-.
    exact Hlen.
Defined.

Lemma detail_csv_holds_fetched_frame_witness :
  exists rows,
    In ("out/temperature_data_aim_1_20240101_120004.csv", DetailCsv rows)
       (outputs example_world
          (fst (example_pipeline example_config example_doc example_world)))
    /\ map row_record rows = example_frame.
Proof.
  destruct (detail_csv_holds_fetched_frame iso_to_datetime exact_mean
              exact_aggregate exact_round2 exact_sum exact_truediv
              example_config example_doc example_world)
    as (w' & rs & Hrun & Hcsv).
  - vm_compute. reflexivity.
  - rewrite example_run_fetches in Hrun. injection Hrun as <- <-.
    destruct (Hcsv example_location example_frame (or_introl eq_refl))
      as (rows & Hin & Hrec & _).
    exists rows. split; [exact Hin | exact Hrec].
Defined.

Lemma summary_and_statistics_list_fetched_witness :
  exists stats,
    In ("out/temperature_statistics_20240101_120004.csv", StatisticsCsv stats)
       (outputs example_world
          (fst (example_pipeline example_config example_doc example_world)))
    /\ map (PyDict.get String.eqb "aim_id") stats = [Some (FStr "aim_1")].
Proof.
  destruct (summary_and_statistics_list_fetched iso_to_datetime exact_mean
              exact_aggregate exact_round2 exact_sum exact_truediv
              example_config example_doc example_world)
    as (w' & rs & Hrun & Hlist).
  - vm_compute. reflexivity.
  - rewrite example_run_fetches in Hrun. injection Hrun as <- <-.
    destruct (Hlist ltac:(discriminate)) as (_ & stats & Hin & Hid & _).
    exists stats. split; [exact Hin | exact Hid].
Defined.

Lemma statistics_only_for_seasons_with_records_witness :
  PyDict.get String.eqb "summer_humidity_max"
    (example_row [] "aim_1" (annotate None "aim_1" example_frame)) = None.
Proof.
  destruct (PyDict.get String.eqb "summer_humidity_max"
              (example_row [] "aim_1" (annotate None "aim_1" example_frame)))
    as [v |] eqn:E; [exfalso | reflexivity].
  destruct (proj1 (statistics_only_for_seasons_with_records
                     exact_aggregate exact_round2 [] "aim_1"
                     example_frame Summer (Humidity, Max)
                     ltac:(cbn; tauto)))
    as (r & Hr & Hs).
  - cbv zeta. intros Hn.
    pose proof (eq_trans (eq_sym E) Hn) as X. discriminate X.
  - vm_compute in Hr. destruct Hr as [<- | [<- | []]]; discriminate Hs.
Defined.

Lemma save_without_summary_witness :
  exists rows,
    In ("out/temperature_data_aim_1_20240101_120000.csv", DetailCsv rows)
       (outputs example_world
          (fst (save_temperature_data exact_aggregate exact_round2 []
                  [("aim_1", example_frame)] "out" example_world))) /\
    Forall (fun r => row_aim_id r = "aim_1" /\ row_address r = "" /\
                     row_latitude r = None /\ row_longitude r = None)
           rows.
Proof.
  destruct (save_without_summary exact_aggregate exact_round2 []
              [("aim_1", example_frame)] "out"
              example_world "aim_1" example_frame (or_introl eq_refl)
              (fun d (H : In d []) => match H with end))
    as (_ & (rows & Hin & _ & Hrows) & _).
  exists rows. split; [exact Hin | exact Hrows].
Defined.

(** The two remote APIs differ at the third location, which the run does
    not reach. *)
Lemma run_depends_on_its_requests_only_witness :
  sparse_remote (request_at example_world 2 skipped_location)
  <> example_remote (request_at example_world 2 skipped_location) /\
  snd (example_pipeline example_config interrupted_doc
         (with_remote example_world sparse_remote))
  = snd (example_pipeline example_config interrupted_doc example_world).
Proof.
  split; [discriminate |].
  refine (proj1 (run_depends_on_its_requests_only iso_to_datetime
                   exact_mean exact_aggregate exact_round2 exact_sum
                   exact_truediv example_config interrupted_doc
                   example_world sparse_remote _)).
  intros k coord Hk Hreach.
  destruct k as [| [| [| k]]]; vm_compute in Hk.
  - injection Hk as <-. reflexivity.
  - injection Hk as <-. reflexivity.
  - exfalso.
    destruct (Hreach 1%nat failing_location) as (r & Hr);
      [lia | reflexivity |].
    vm_compute in Hr. discriminate Hr.
  - destruct k; discriminate Hk.
Defined.
